(** * serve.py: the development server of Financial Atlas

    A shallow embedding of [serve.py] and the properties of its four parts:
    the change notifier ([FileChangeHandler]), the request handler
    ([CORSHTTPRequestHandler]), the network address resolver
    ([get_network_ip]) and the orchestrator ([main]). *)

From Stdlib Require Import QArith Lqa Sorted.
From stdpp Require Import gmap strings list pretty.

Local Open Scope string_scope.

(** ** Strings *)

(** [str.endswith(suffix)]: the last [len(suffix)] characters are the suffix. *)
Definition endswith (s suffix : string) : bool :=
  let n := String.length s in
  let k := String.length suffix in
  (k <=? n)%nat && String.eqb (String.substring (n - k) k s) suffix.

(** [str.endswith((s1, s2, ...))]: one of the suffixes matches. *)
Definition endswith_any (s : string) (suffixes : list string) : bool :=
  existsb (endswith s) suffixes.

(** ** Change notifier *)

Module Notifier.

(** The event classes of watchdog; [dispatch] selects the handler method by
    this tag. *)
Inductive event_type :=
  | Created | Deleted | Modified | Moved | Closed | Opened.

Record event := {
  kind : event_type;
  is_directory : bool;
  src_path : string
}.

(** [FileChangeHandler]: [last_modified] is the dictionary from path to the
    clock reading of the last delivery.  The callback is fixed when the
    handler is built; calling it is recorded as its argument. *)
Record FileChangeHandler := {
  last_modified : gmap string Q
}.

(** [FileChangeHandler.__init__]: [self.last_modified = {}]. *)
Definition init : FileChangeHandler := {| last_modified := ∅ |}.

Definition watched_suffixes : list string := [".html"; ".css"; ".js"].

(** The step from 1 to the next float above it, [2 ** -52]. *)
Definition ulp_one : Q := 1 # 4503599627370496.

(** [now - self.last_modified[path] > 1], on the exact difference of the two
    clock readings.  The code compares the difference as a float: that is
    the exact difference for epoch seconds ([time.time()], two readings
    within a factor of two of each other), and for any two floats it is above
    1 only if the exact difference is, and whenever the exact difference is
    at least [1 + ulp_one].  The properties below use the test through these
    two facts only. *)
Definition window_passed (now last : Q) : bool :=
  negb (Qle_bool (now - last) 1).

(** [on_modified(event)], with [now] the value [time.time()] returns inside it.
    Result: the handler afterwards and the calls made to [self.callback]. *)
Definition on_modified (now : Q) (ev : event) (h : FileChangeHandler)
  : FileChangeHandler * list string :=
  if is_directory ev then (h, [])
  else if endswith_any (src_path ev) watched_suffixes then
    match last_modified h !! src_path ev with
    | None =>
        ({| last_modified := <[src_path ev := now]> (last_modified h) |},
         [src_path ev])
    | Some last =>
        if window_passed now last then
          ({| last_modified := <[src_path ev := now]> (last_modified h) |},
           [src_path ev])
        else (h, [])
    end
  else (h, []).

(** [FileSystemEventHandler.dispatch]: the class overrides [on_modified] only;
    [on_created], [on_deleted], [on_moved], [on_closed] and [on_opened] are the
    inherited methods, which do nothing. *)
Definition dispatch (now : Q) (ev : event) (h : FileChangeHandler)
  : FileChangeHandler * list string :=
  match kind ev with
  | Modified => on_modified now ev h
  | _ => (h, [])
  end.

(** The observer thread: events are dispatched one after the other; each
    delivery is logged with the clock reading taken for it. *)
Fixpoint run (evs : list (Q * event)) (h : FileChangeHandler)
  : FileChangeHandler * list (Q * string) :=
  match evs with
  | [] => (h, [])
  | (now, ev) :: rest =>
      let '(h1, calls) := dispatch now ev h in
      let '(h2, log) := run rest h1 in
      (h2, (map (pair now) calls ++ log)%list)
  end.

(** A qualifying event: a modification of a file (not a directory) whose path
    ends in one of the watched suffixes. *)
Definition qualifying (ev : event) : bool :=
  match kind ev with Modified => true | _ => false end
  && negb (is_directory ev)
  && endswith_any (src_path ev) watched_suffixes.

Definition modification (p : string) : event :=
  {| kind := Modified; is_directory := false; src_path := p |}.

(** The deliveries of a log that are for path [p]. *)
Definition deliveries_for (p : string) (log : list (Q * string))
  : list (Q * string) :=
  List.filter (fun d => String.eqb (snd d) p) log.

(** The log entry a timed event makes when it is delivered. *)
Definition delivery_of (tev : Q * event) : Q * string :=
  (fst tev, src_path (snd tev)).

(** The timed events that are for path [p]. *)
Definition for_path (p : string) (tev : Q * event) : bool :=
  String.eqb (src_path (snd tev)) p.

(** The clock reading of the latest delivery for [p] in a log. *)
Definition last_delivery (p : string) (log : list (Q * string)) : option Q :=
  last (map fst (deliveries_for p log)).

(** Clock readings each at least [1 + ulp_one] seconds after the one
    before, so that the difference is above 1 as a float too; the first one
    that long after [prev], when there is one. *)
Fixpoint spaced_after (prev : option Q) (ts : list Q) : Prop :=
  match ts with
  | [] => True
  | t :: rest =>
      match prev with
      | Some l => (1 + ulp_one <= t - l)%Q
      | None => True
      end
      /\ spaced_after (Some t) rest
  end.

End Notifier.

(** [str(n)] for an [int], as an f-string prints it: decimal digits, with a
    minus sign when negative. *)
Definition str_of_int (n : Z) : string := pretty n.

(** ** Request handler *)

Module Handler.

(** The calls a handler method makes on the base class, in order.
    [BaseEndHeaders] is [BaseHTTPRequestHandler.end_headers], which ends the
    header block and flushes it; [WriteBody] is a write to [self.wfile];
    [FileSystem] is any use of the served directory ([open], [os.stat],
    [os.listdir]) by the static-file methods. *)
Inductive action :=
  | SendResponse (code : Z)
  | SendHeader (keyword value : string)
  | BaseEndHeaders
  | WriteBody (data : string)
  | FileSystem (path : string).

Definition send_response (code : Z) (out : list action) : list action :=
  (out ++ [SendResponse code])%list.

Definition send_header (keyword value : string) (out : list action)
  : list action :=
  (out ++ [SendHeader keyword value])%list.

Definition super_end_headers (out : list action) : list action :=
  (out ++ [BaseEndHeaders])%list.

(** [CORSHTTPRequestHandler.end_headers]. *)
Definition end_headers (out : list action) : list action :=
  let out := send_header "Access-Control-Allow-Origin" "*" out in
  let out := send_header "Access-Control-Allow-Methods" "GET, POST, OPTIONS" out in
  let out := send_header "Access-Control-Allow-Headers" "Content-Type" out in
  let out := send_header "Cache-Control" "no-cache, no-store, must-revalidate" out in
  let out := send_header "Pragma" "no-cache" out in
  let out := send_header "Expires" "0" out in
  super_end_headers out.

Record request := {
  command : string;
  path : string
}.

(** [CORSHTTPRequestHandler.do_OPTIONS]; the request is [self]. *)
Definition do_OPTIONS (req : request) (out : list action) : list action :=
  let out := send_response 200 out in
  end_headers out.

(** The methods the class inherits ([do_GET], [do_HEAD], [send_error], ...)
    are library code: each is a sequence of calls on [self].  A call of
    [self.end_headers()] in them reaches the override above. *)
Inductive call :=
  | CallSendResponse (code : Z)
  | CallSendHeader (keyword value : string)
  | CallEndHeaders
  | CallWrite (data : string)
  | CallFileSystem (path : string).

Definition perform (c : call) (out : list action) : list action :=
  match c with
  | CallSendResponse code => send_response code out
  | CallSendHeader k v => send_header k v out
  | CallEndHeaders => end_headers out
  | CallWrite data => (out ++ [WriteBody data])%list
  | CallFileSystem p => (out ++ [FileSystem p])%list
  end.

Definition perform_all (cs : list call) (out : list action) : list action :=
  fold_left (fun o c => perform c o) cs out.

(** [handle_one_request]: the method [do_<command>] is looked up on the
    handler.  [do_OPTIONS] is the one above; [inherited] stands for what the
    base classes do with every other request. *)
Definition handle (inherited : request -> list call) (req : request)
  : list action :=
  if String.eqb (command req) "OPTIONS" then do_OPTIONS req []
  else perform_all (inherited req) [].

(** The headers a response carries: those sent before the header block
    ends. *)
Definition headers_of (out : list action) : list (string * string) :=
  omap (fun a => match a with SendHeader k v => Some (k, v) | _ => None end) out.

Definition body_of (out : list action) : list string :=
  omap (fun a => match a with WriteBody d => Some d | _ => None end) out.

Definition status_of (out : list action) : list Z :=
  omap (fun a => match a with SendResponse c => Some c | _ => None end) out.

Definition file_accesses (out : list action) : list string :=
  omap (fun a => match a with FileSystem p => Some p | _ => None end) out.

(** The headers of the specification's contract, in its order. *)
Definition fixed_headers : list (string * string) :=
  [ ("Access-Control-Allow-Origin", "*");
    ("Access-Control-Allow-Methods", "GET, POST, OPTIONS");
    ("Access-Control-Allow-Headers", "Content-Type");
    ("Cache-Control", "no-cache, no-store, must-revalidate");
    ("Pragma", "no-cache");
    ("Expires", "0") ].

(** The calls [end_headers] makes before it hands over to the base class. *)
Definition fixed_sends : list action :=
  map (fun kv => SendHeader (fst kv) (snd kv)) fixed_headers.


(** What the calls of an inherited method amount to, part by part: the
    status codes, the body writes, the uses of the file system, and the
    headers, where each [self.end_headers()] stands for the fixed headers. *)
Definition codes_of_calls (cs : list call) : list Z :=
  omap (fun c => match c with CallSendResponse code => Some code | _ => None end) cs.

Definition bodies_of_calls (cs : list call) : list string :=
  omap (fun c => match c with CallWrite d => Some d | _ => None end) cs.

Definition accesses_of_calls (cs : list call) : list string :=
  omap (fun c => match c with CallFileSystem p => Some p | _ => None end) cs.

Definition headers_of_calls (cs : list call) : list (string * string) :=
  flat_map (fun c => match c with
                     | CallSendHeader k v => [(k, v)]
                     | CallEndHeaders => fixed_headers
                     | _ => []
                     end) cs.

Definition blocks_of_calls (cs : list call) : nat :=
  length (List.filter (fun c => match c with CallEndHeaders => true | _ => false end) cs).

Definition own_headers_of_calls (cs : list call) : list (string * string) :=
  omap (fun c => match c with CallSendHeader k v => Some (k, v) | _ => None end) cs.

End Handler.

(** ** Exceptions and effects *)

Module Py.

(** The subclasses of [Exception] the program meets.  [str_of] is [str(e)]. *)
Inductive exception :=
  | OSError (errno : Z) (strerror : string)
  | ImportError (msg : string)
  | OtherException (msg : string).

Definition str_of (e : exception) : string :=
  match e with
  | OSError errno strerror => "[Errno " ++ str_of_int errno ++ "] " ++ strerror
  | ImportError msg => msg
  | OtherException msg => msg
  end.

(** What a statement can raise: an [Exception], or one of the two
    [BaseException]s that [except Exception] lets through. *)
Inductive raised :=
  | Exc (e : exception)
  | KeyboardInterrupt
  | SystemExit (code : Z).

(** [Blocked]: the call never returns (the accept loop). *)
Inductive outcome (A : Type) :=
  | Ret (a : A)
  | Raise (r : raised)
  | Blocked.
Arguments Ret {A} a.
Arguments Raise {A} r.
Arguments Blocked {A}.

(** What the process does to the outside, in order. *)
Inductive action :=
  | Print (line : string)
  | Chdir (dir : string)
  | ObserverStart (dir : string) (recursive : bool)
  | ObserverStop
  | ObserverJoin
  | ServerBind (host : string) (port : Z)
  | ServerClose
  | ServeForever
  | TimerStart (delay : Z) (url : string)
  | Traceback (e : exception).

Record world := {
  cwd : string;
  probes_done : nat;
  out : list action
}.

Definition M (A : Type) : Type := world -> outcome A * world.

#[global] Instance M_ret : MRet M := fun A a w => (Ret a, w).

#[global] Instance M_bind : MBind M := fun A B k m w =>
  match m w with
  | (Ret a, w1) => k a w1
  | (Raise r, w1) => (Raise r, w1)
  | (Blocked, w1) => (Blocked, w1)
  end.

Definition raise {A} (r : raised) : M A := fun w => (Raise r, w).

Definition block {A} : M A := fun w => (Blocked, w).

Definition emit (a : action) : M unit := fun w =>
  (Ret tt, {| cwd := cwd w; probes_done := probes_done w;
              out := (out w ++ [a])%list |}).

Definition print (line : string) : M unit := emit (Print line).

Definition getcwd : M string := fun w => (Ret (cwd w), w).

Definition chdir (dir : string) : M unit := fun w =>
  (Ret tt, {| cwd := dir; probes_done := probes_done w;
              out := (out w ++ [Chdir dir])%list |}).

Definition next_probe : M nat := fun w =>
  (Ret (probes_done w),
   {| cwd := cwd w; probes_done := S (probes_done w); out := out w |}).

(** [try: body  except ...: handler].  The handler answers [None] for what no
    [except] clause matches; that is raised again. *)
Definition try_except {A} (body : M A) (handler : raised -> option (M A))
  : M A := fun w =>
  match body w with
  | (Raise r, w1) =>
      match handler r with
      | Some h => h w1
      | None => (Raise r, w1)
      end
  | res => res
  end.

(** [try: body  finally: cleanup]. *)
Definition try_finally {A} (body : M A) (cleanup : M unit) : M A := fun w =>
  match body w with
  | (Blocked, w1) => (Blocked, w1)
  | (res, w1) =>
      match cleanup w1 with
      | (Ret _, w2) => (res, w2)
      | (Raise r, w2) => (Raise r, w2)
      | (Blocked, w2) => (Blocked, w2)
      end
  end.

(** [sys.exit(code)]. *)
Definition sys_exit {A} (code : Z) : M A := raise (SystemExit code).

(** An operation of the operating system or of a library: it returns, or it
    raises an [Exception]. *)
Inductive attempt (A : Type) :=
  | Done (a : A)
  | Fails (e : exception).
Arguments Done {A} a.
Arguments Fails {A} e.

Definition perform {A} (r : attempt A) : M A :=
  match r with
  | Done a => mret a
  | Fails e => raise (Exc e)
  end.

(** Everything [m] adds to the output satisfies [P], however [m] ends. *)
Definition emits {A} (P : action -> Prop) (m : M A) : Prop :=
  forall w, exists added,
    out (snd (m w)) = (out w ++ added)%list /\ Forall P added.

End Py.

(** ** Network address resolver *)

Module Resolver.
Import Py.

(** What the three socket calls of one probe do. *)
Record probe := {
  socket_open : attempt unit;
  socket_connect : attempt unit;
  socket_getsockname : attempt (string * Z)
}.

(** [get_network_ip()]; [probes] tells what the sockets of the successive
    calls do. *)
Definition get_network_ip (probes : nat -> probe) : M string :=
  try_except
    (n ← next_probe;
     perform (socket_open (probes n));;
     perform (socket_connect (probes n));;
     name ← perform (socket_getsockname (probes n));
     mret (fst name))
    (fun r => match r with
              | Exc _ => Some (mret "127.0.0.1")
              | _ => None
              end).

(** The address one probe yields. *)
Definition resolved (p : probe) : string :=
  match socket_open p, socket_connect p, socket_getsockname p with
  | Done _, Done _, Done name => fst name
  | _, _, _ => "127.0.0.1"
  end.

End Resolver.

(** ** Orchestrator *)

Module Orchestrator.
Import Py.

(** The parsed command line ([argparse] namespace). *)
Record args := {
  port : Z;
  no_browser : bool;
  no_watch : bool;
  host : string
}.

(** The surroundings of one launch. *)
Record env := {
  launch_cwd : string;                    (* working directory of the shell *)
  script_dir : string;                    (* [Path(__file__).parent] *)
  path_exists : string -> string -> bool; (* [os.path.exists], by directory *)
  watchdog_installed : bool;
  watcher_start : attempt unit;           (* [Observer()], [schedule], [start] *)
  server_bind : attempt unit;             (* [socketserver.TCPServer(...)] *)
  probes : nat -> Resolver.probe;
  serve_ends : option raised              (* [None]: the loop never ends *)
}.

(** The line feed. *)
Definition nl : string := String (Ascii.ascii_of_nat 10) EmptyString.

Fixpoint repeat_string (s : string) (n : nat) : string :=
  match n with
  | O => EmptyString
  | S k => s ++ repeat_string s k
  end.

Definition rule : string := repeat_string "=" 60.

(** [check_dependencies()]. *)
Definition required_files : list string := ["index.html"].

Definition check_dependencies (e : env) : M bool :=
  dir ← getcwd;
  let missing_files :=
    List.filter (fun file => negb (path_exists e dir file)) required_files in
  match missing_files with
  | [] => mret true
  | _ =>
      print ("❌ Missing required files: " ++ String.concat ", " missing_files);;
      mret false
  end.

(** [start_file_watcher(directory, callback)]; the result is the observer. *)
Definition start_file_watcher (e : env) (directory : string) : M unit :=
  perform (watcher_start e);;
  emit (ObserverStart directory false).

(** The body of [with socketserver.TCPServer(...) as httpd:]. *)
Definition serve (a : args) (e : env) : M unit :=
  host_display ←
    (if String.eqb (host a) "0.0.0.0" then Resolver.get_network_ip (probes e)
     else mret (host a));
  print (nl ++ rule);;
  print "🚀 Financial Atlas Development Server";;
  print rule;;
  dir ← getcwd;
  print ("📁 Serving directory: " ++ dir);;
  print ("🌐 Local URL:        http://127.0.0.1:" ++ str_of_int (port a));;
  (if String.eqb (host a) "0.0.0.0" then
     network_ip ← Resolver.get_network_ip (probes e);
     print ("🌍 Network URL:      http://" ++ network_ip ++ ":" ++ str_of_int (port a))
   else mret tt);;
  print "📝 Main file:        index.html";;
  print rule;;
  print "💡 Tips:";;
  print "   • Press Ctrl+C to stop the server";;
  print "   • Refresh browser to see changes";;
  (if negb (no_watch a) then
     print "   • File changes are automatically detected"
   else mret tt);;
  print "   • Check browser console for any errors";;
  print rule;;
  (if negb (no_browser a) then
     let url := "http://127.0.0.1:" ++ str_of_int (port a) in
     print ("🔗 Opening browser: " ++ url);;
     emit (TimerStart 1 url)
   else mret tt);;
  print (nl ++ "✅ Server running on http://" ++ host_display ++ ":"
            ++ str_of_int (port a));;
  print ("   Press Ctrl+C to stop" ++ nl);;
  emit ServeForever;;
  match serve_ends e with
  | Some r => raise r
  | None => block
  end.

(** [with ... as httpd: body]: the constructor binds and listens, and when
    that fails it closes its socket ([server_close()]) before it raises;
    leaving the block closes the server. *)
Definition with_server (a : args) (e : env) (body : M unit) : M unit :=
  match server_bind e with
  | Fails x => emit ServerClose;; raise (Exc x)
  | Done _ =>
      emit (ServerBind (host a) (port a));;
      try_finally body (emit ServerClose)
  end.

(** [main()], after [parser.parse_args()]. *)
Definition main (a : args) (e : env) : M unit :=
  chdir (script_dir e);;
  ok ← check_dependencies e;
  (if negb ok then sys_exit 1 else mret tt);;
  observer ←
    ((if negb (no_watch a) then
       try_except
         (start_file_watcher e ".";;
          print "👀 File watcher started - changes will be detected";;
          mret true)
         (fun r => match r with
            | Exc (ImportError _) => Some (
                print "⚠️  File watching not available (install watchdog: pip install watchdog)";;
                mret false)
            | Exc x => Some (
                print ("⚠️  Could not start file watcher: " ++ str_of x);;
                mret false)
            | _ => None
            end)
      else mret false) : M bool);
  try_finally
    (try_except
       (with_server a e (serve a e))
       (fun r => match r with
          | KeyboardInterrupt => Some (
              print (nl ++ nl ++ "🛑 Server stopped by user"))
          | Exc (OSError errno strerror) => Some (
              (if (errno =? 48)%Z then
                 print ("❌ Port " ++ str_of_int (port a)
                          ++ " is already in use. Try a different port:");;
                 print ("   python serve.py -p " ++ str_of_int (port a + 1)%Z)
               else
                 print ("❌ Server error: " ++ str_of (OSError errno strerror)));;
              sys_exit 1)
          | Exc x => Some (
              print ("❌ Unexpected error: " ++ str_of x);;
              sys_exit 1)
          | SystemExit _ => None
          end))
    (if (observer : bool) then emit ObserverStop;; emit ObserverJoin
     else mret tt).

(** How the process stands once the script has run. *)
Inductive status :=
  | Exited (code : Z)
  | Interrupted
  | Serving.

(** The script from its first line: the imports of the module (lines 7 to
    17, [watchdog] among them), then [main()] under
    [if __name__ == '__main__'].  An exception nothing catches ends the
    process: the interpreter prints the traceback and the exit status is 1. *)
Definition run_script (a : args) (e : env) : status * list action :=
  if watchdog_installed e then
    match main a e {| cwd := launch_cwd e; probes_done := 0; out := [] |} with
    | (Ret _, w) => (Exited 0, out w)
    | (Raise (SystemExit code), w) => (Exited code, out w)
    | (Raise (Exc x), w) => (Exited 1, (out w ++ [Traceback x])%list)
    | (Raise KeyboardInterrupt, w) => (Interrupted, out w)
    | (Blocked, w) => (Serving, out w)
    end
  else
    (Exited 1, [Traceback (ImportError "No module named 'watchdog'")]).

(** The value of [errno.EADDRINUSE], which the operating system reports when
    the port is taken. *)
Inductive platform := Linux | Darwin.

Definition EADDRINUSE (p : platform) : Z :=
  match p with
  | Linux => 98
  | Darwin => 48
  end.

(** The address the browser is sent to. *)
Definition browser_url (a : args) : string :=
  "http://127.0.0.1:" ++ str_of_int (port a).

Definition loopback_timer (a : args) (act : action) : Prop :=
  match act with
  | TimerStart delay url => delay = 1%Z /\ url = browser_url a
  | _ => True
  end.

(** A launch for the examples: started from another directory, watching
    and auto-open on, the serving ended by an interrupt. *)
Definition demo_args : args :=
  {| port := 8000; no_browser := false; no_watch := false;
     host := "127.0.0.1" |}.

Definition demo_env : env :=
  {| launch_cwd := "/home/dev"; script_dir := "/srv/atlas";
     path_exists := fun dir file =>
       String.eqb dir "/srv/atlas" && String.eqb file "index.html";
     watchdog_installed := true; watcher_start := Done tt;
     server_bind := Done tt;
     probes := fun _ =>
       {| Resolver.socket_open := Done tt;
          Resolver.socket_connect := Done tt;
          Resolver.socket_getsockname := Done ("192.168.1.20", 51000%Z) |};
     serve_ends := Some KeyboardInterrupt |}.

(** Whether two actions are of one kind, whatever their arguments. *)
Definition same_kind (x y : action) : bool :=
  match x, y with
  | Print _, Print _ => true
  | Chdir _, Chdir _ => true
  | ObserverStart _ _, ObserverStart _ _ => true
  | ObserverStop, ObserverStop => true
  | ObserverJoin, ObserverJoin => true
  | ServerBind _ _, ServerBind _ _ => true
  | ServerClose, ServerClose => true
  | ServeForever, ServeForever => true
  | TimerStart _ _, TimerStart _ _ => true
  | Traceback _, Traceback _ => true
  | _, _ => false
  end.

(** The place of an action in the life of the process; printing has none. *)
Definition stage (act : action) : option nat :=
  match act with
  | Print _ => None
  | Traceback _ => Some 0%nat
  | Chdir _ => Some 1%nat
  | ObserverStart _ _ => Some 2%nat
  | ServerBind _ _ => Some 3%nat
  | TimerStart _ _ => Some 4%nat
  | ServeForever => Some 5%nat
  | ServerClose => Some 6%nat
  | ObserverStop => Some 7%nat
  | ObserverJoin => Some 8%nat
  end.

Definition stages (tr : list action) : list nat := omap stage tr.

(** The exit status as the surroundings decide it. *)
Definition expected_status (e : env) : status :=
  if negb (watchdog_installed e) then Exited 1
  else if negb (path_exists e (script_dir e) "index.html") then Exited 1
  else match server_bind e with
       | Fails _ => Exited 1
       | Done _ =>
           match serve_ends e with
           | None => Serving
           | Some KeyboardInterrupt => Exited 0
           | Some (Exc _) => Exited 1
           | Some (SystemExit code) => Exited code
           end
       end.

End Orchestrator.

(** ** The callback of the watcher *)

Module Callback.
Import Py.

Definition slash : Ascii.ascii := Ascii.ascii_of_nat 47.

Fixpoint slash_free (s : string) : bool :=
  match s with
  | EmptyString => true
  | String c rest => negb (Ascii.eqb c slash) && slash_free rest
  end.

(** What follows the last slash of [p], when [p] has a slash. *)
Fixpoint after_last_slash (p : string) : option string :=
  match p with
  | EmptyString => None
  | String c rest =>
      match after_last_slash rest with
      | Some s => Some s
      | None => if Ascii.eqb c slash then Some rest else None
      end
  end.

(** [os.path.basename(p)] of [posixpath]: [p[p.rfind('/') + 1:]]. *)
Definition basename (p : string) : string :=
  match after_last_slash p with
  | Some s => s
  | None => p
  end.

(** [on_file_changed(file_path)]. *)
Definition on_file_changed (file_path : string) : M unit :=
  print ("📁 File changed: " ++ basename file_path);;
  print "🔄 Refresh your browser to see changes".

End Callback.

(** * Properties *)

(** ** Change notifier *)

Section NotifierFacts.
Import Notifier.

Example endswith_js : endswith "app.js" ".js" = true.
Proof. reflexivity. Qed.

Example endswith_short : endswith "js" ".js" = false.
Proof. reflexivity. Qed.

Example endswith_case : endswith_any "APP.JS" watched_suffixes = false.
Proof. reflexivity. Qed.

Example run_thrice :
  snd (run [(0%Q, modification "a.js"); ((1#2)%Q, modification "a.js");
            ((3#2)%Q, modification "a.js")] init)
  = [(0%Q, "a.js"); ((3#2)%Q, "a.js")].
Proof. vm_compute. reflexivity. Qed.

Lemma window_passed_spec (now last : Q) :
  window_passed now last = true <-> (1 < now - last)%Q.
Proof.
  unfold window_passed. rewrite negb_true_iff.
  destruct (Qle_bool (now - last) 1) eqn:E.
  - apply Qle_bool_iff in E. split; [discriminate | intros H; lra].
  - split; [intros _ | reflexivity].
    apply Qnot_le_lt. intros H. apply Qle_bool_iff in H. congruence.
Qed.

(** The two ways [dispatch] ends: nothing happens, or the event is delivered
    and its clock reading stored. *)
Lemma dispatch_cases (now : Q) (ev : event) (h : FileChangeHandler) :
  dispatch now ev h = (h, [])
  \/ (qualifying ev = true
      /\ dispatch now ev h
         = ({| last_modified := <[src_path ev := now]> (last_modified h) |},
            [src_path ev])
      /\ forall last, last_modified h !! src_path ev = Some last ->
                      (1 < now - last)%Q).
Proof.
  unfold dispatch, on_modified, qualifying.
  destruct (kind ev); auto.
  destruct (is_directory ev); auto.
  destruct (endswith_any (src_path ev) watched_suffixes); auto.
  destruct (last_modified h !! src_path ev) as [last|] eqn:L.
  - destruct (window_passed now last) eqn:W; auto.
    right. repeat split. intros last' [= <-]. now apply window_passed_spec.
  - right. repeat split. intros last' [=].
Qed.

(** Every delivery of a run comes more than a second after what the table
    held for its path when the run began. *)
Lemma run_after_table (evs : list (Q * event)) :
  forall (h : FileChangeHandler) (t last : Q) (p : string),
    In (t, p) (snd (run evs h)) ->
    last_modified h !! p = Some last ->
    (1 < t - last)%Q.
Proof.
  induction evs as [|[now ev] rest IH]; intros h t last p Hin Hl; simpl in *.
  - contradiction.
  - destruct (dispatch_cases now ev h) as [E | (_ & E & Hw)]; rewrite E in Hin.
    + destruct (run rest h) as [h2 log] eqn:R. simpl in Hin.
      apply (IH h t last p); [rewrite R; exact Hin | exact Hl].
    + destruct (run rest _) as [h2 log] eqn:R. simpl in Hin.
      destruct Hin as [[= <- <-] | Hin].
      * now apply Hw.
      * destruct (decide (src_path ev = p)) as [Heq | Hne].
        -- assert (1 < t - now)%Q as H1.
           { eapply IH; [rewrite R; exact Hin |]. simpl. rewrite Heq.
             apply lookup_insert_eq. }
           rewrite <- Heq in Hl.
           specialize (Hw last Hl). lra.
        -- eapply IH; [rewrite R; exact Hin |]. simpl.
           rewrite lookup_insert_ne by exact Hne. exact Hl.
Qed.

(** Two deliveries for one path are more than a second apart. *)
Lemma run_separated (evs : list (Q * event)) :
  forall (h : FileChangeHandler) l1 t1 p l2 t2 l3,
    snd (run evs h) = (l1 ++ (t1, p) :: l2 ++ (t2, p) :: l3)%list ->
    (1 < t2 - t1)%Q.
Proof.
  induction evs as [|[now ev] rest IH]; intros h l1 t1 p l2 t2 l3 Hlog;
    simpl in *.
  - destruct l1; discriminate.
  - destruct (dispatch_cases now ev h) as [E | (_ & E & Hw)]; rewrite E in Hlog.
    + destruct (run rest h) as [h2 log] eqn:R. simpl in Hlog.
      eapply (IH h). rewrite R. exact Hlog.
    + destruct (run rest _) as [h2 log] eqn:R. simpl in Hlog.
      destruct l1 as [|d l1]; simpl in Hlog.
      * injection Hlog as <- <- Hlog.
        eapply run_after_table.
        -- rewrite R. simpl. rewrite Hlog. apply in_or_app. right. left.
           reflexivity.
        -- simpl. apply lookup_insert_eq.
      * injection Hlog as _ Hlog. eapply IH. rewrite R. exact Hlog.
Qed.

(** A delivery carries the clock reading of one of the events. *)
Lemma run_times (evs : list (Q * event)) :
  forall (h : FileChangeHandler) t p,
    In (t, p) (snd (run evs h)) -> In t (map fst evs).
Proof.
  induction evs as [|[now ev] rest IH]; intros h t p Hin; simpl in *.
  - contradiction.
  - destruct (dispatch_cases now ev h) as [E | (_ & E & _)]; rewrite E in Hin;
      destruct (run rest _) as [h2 log] eqn:R; simpl in Hin.
    + right. apply (IH h t p). now rewrite R.
    + destruct Hin as [[= <- _] | Hin]; [now left |].
      right. eapply IH. rewrite R. exact Hin.
Qed.

Lemma two_deliveries (p : string) (log : list (Q * string)) :
  (2 <= length (deliveries_for p log))%nat ->
  exists l1 t1 l2 t2 l3,
    log = (l1 ++ (t1, p) :: l2 ++ (t2, p) :: l3)%list.
Proof.
  assert (forall l, (1 <= length (deliveries_for p l))%nat ->
            exists l1 t l2, l = (l1 ++ (t, p) :: l2)%list) as one.
  { induction l as [|[t q] l IH]; simpl; intros H; [lia |].
    destruct (String.eqb q p) eqn:E.
    - apply String.eqb_eq in E. subst q. now exists [], t, l.
    - destruct (IH H) as (l1 & t' & l2 & ->). now exists ((t, q) :: l1), t', l2. }
  induction log as [|[t q] log IH]; simpl; intros H; [lia |].
  destruct (String.eqb q p) eqn:E.
  - apply String.eqb_eq in E. subst q. simpl in H.
    destruct (one log) as (l2 & t2 & l3 & ->); [lia |].
    now exists [], t, l2, t2, l3.
  - destruct (IH H) as (l1 & t1 & l2 & t2 & l3 & ->).
    now exists ((t, q) :: l1), t1, l2, t2, l3.
Qed.

Lemma run_watched (evs : list (Q * event)) :
  forall (h : FileChangeHandler) t p,
    In (t, p) (snd (run evs h)) -> endswith_any p watched_suffixes = true.
Proof.
  induction evs as [|[now ev] rest IH]; intros h t p Hin; simpl in *.
  - contradiction.
  - destruct (dispatch_cases now ev h) as [E | (Hq & E & _)]; rewrite E in Hin;
      destruct (run rest _) as [h2 log] eqn:R; simpl in Hin.
    + apply (IH h t p). now rewrite R.
    + destruct Hin as [[= _ <-] | Hin].
      * unfold qualifying in Hq. now apply andb_true_iff in Hq as [_ Hq].
      * eapply IH. rewrite R. exact Hin.
Qed.

(** C1: a modification of a watched path reaches the callback only if no
    earlier delivery for that path lies within the last second, the test being
    strict ([now - last > 1]): two deliveries for one path are always more
    than one second apart, so among events whose clock readings lie within
    one second of each other the callback fires at most once per path; and
    only paths ending in .html, .css or .js are delivered at all. *)
Theorem debounce_one_second (evs : list (Q * event)) (h : FileChangeHandler) :
  (forall l1 t1 p l2 t2 l3,
      snd (run evs h) = (l1 ++ (t1, p) :: l2 ++ (t2, p) :: l3)%list ->
      (1 < t2 - t1)%Q)
  /\ (forall p,
      (forall t t', In t (map fst evs) -> In t' (map fst evs) ->
                    (t' - t <= 1)%Q) ->
      (length (deliveries_for p (snd (run evs h))) <= 1)%nat)
  /\ (forall t p, In (t, p) (snd (run evs h)) ->
                  endswith_any p watched_suffixes = true).
Proof.
  split; [| split].
  - intros l1 t1 p l2 t2 l3. apply run_separated.
  - intros p Hclose.
    destruct (le_lt_dec (length (deliveries_for p (snd (run evs h)))) 1)
      as [Hle | Hgt]; [exact Hle | exfalso].
    destruct (two_deliveries p (snd (run evs h)) Hgt)
      as (l1 & t1 & l2 & t2 & l3 & Hlog).
    pose proof (run_separated evs h _ _ _ _ _ _ Hlog) as Hfar.
    assert (In t1 (map fst evs)) as H1.
    { apply (run_times evs h t1 p). rewrite Hlog. apply in_or_app. right.
      now left. }
    assert (In t2 (map fst evs)) as H2.
    { apply (run_times evs h t2 p). rewrite Hlog. apply in_or_app. right.
      right. apply in_or_app. right. now left. }
    specialize (Hclose t1 t2 H1 H2). lra.
  - intros t p. apply run_watched.
Qed.

Lemma debounce_one_second_witness :
  (1 < (3 # 2) - 0)%Q
  /\ (length (deliveries_for "a.js"
        (snd (run [(0%Q, modification "a.js"); (1%Q, modification "a.js")]
                  init))) <= 1)%nat
  /\ endswith_any "a.js" watched_suffixes = true.
Proof.
  split; [| split].
  - apply (proj1 (debounce_one_second
                    [(0%Q, modification "a.js"); ((1 # 2)%Q, modification "a.js");
                     ((3 # 2)%Q, modification "a.js")] init)
             [] 0%Q "a.js" [] (3 # 2)%Q []).
    vm_compute. reflexivity.
  - apply (proj1 (proj2 (debounce_one_second
                    [(0%Q, modification "a.js"); (1%Q, modification "a.js")]
                    init)) "a.js").
    intros t t' [<- | [<- | []]] [<- | [<- | []]]; vm_compute; discriminate.
  - apply (proj2 (proj2 (debounce_one_second
                    [(0%Q, modification "a.js")] init)) 0%Q "a.js").
    vm_compute. left. reflexivity.
Defined.

(** Exactly one second is not enough: the comparison is strict. *)
Example one_second_is_suppressed :
  snd (run [(0%Q, modification "a.js"); (1%Q, modification "a.js")] init)
  = [(0%Q, "a.js")].
Proof. vm_compute. reflexivity. Qed.




(** Events that are not modifications of a watched path leave the handler
    alone. *)
Lemma dispatch_ignored (now : Q) (ev : event) (h : FileChangeHandler) :
  kind ev <> Modified \/ endswith_any (src_path ev) watched_suffixes = false ->
  dispatch now ev h = (h, []).
Proof.
  intros [Hk | Hext]; unfold dispatch, on_modified.
  - destruct (kind ev); congruence.
  - rewrite Hext. destruct (kind ev); try reflexivity.
    destruct (is_directory ev); reflexivity.
Qed.

(** C8: a modification of a path that does not end in .html, .css or .js,
    and every creation, deletion, rename (and open or close) of any path,
    never reaches the callback, however many such events arrive; the table is
    not touched either. *)
Theorem unwatched_never_delivered (evs : list (Q * event))
    (h : FileChangeHandler) :
  (forall t ev, In (t, ev) evs ->
     kind ev <> Modified
     \/ endswith_any (src_path ev) watched_suffixes = false) ->
  run evs h = (h, []).
Proof.
  induction evs as [|[now ev] rest IH]; intros Hall; simpl.
  - reflexivity.
  - rewrite (dispatch_ignored now ev h) by (apply (Hall now); now left).
    rewrite IH by (intros t ev' Hin; apply (Hall t); now right).
    reflexivity.
Qed.

Lemma unwatched_never_delivered_witness :
  run [(0%Q, modification "notes.txt");
       ((1 # 10)%Q, modification "notes.txt");
       ((2 # 10)%Q, {| kind := Created; is_directory := false;
                       src_path := "new.js" |});
       (5%Q, {| kind := Deleted; is_directory := false;
                src_path := "index.html" |});
       (9%Q, {| kind := Moved; is_directory := false;
                src_path := "style.css" |})] init
  = (init, []).
Proof.
  apply unwatched_never_delivered.
  intros t ev [[= <- <-] | [[= <- <-] | [[= <- <-] | [[= <- <-] | [[= <- <-] | []]]]]];
    (right; reflexivity) || (left; discriminate).
Defined.

End NotifierFacts.

(** ** Request handler *)

Section HandlerFacts.
Import Handler.




Lemma end_headers_eq (out : list action) :
  end_headers out = ((out ++ fixed_sends) ++ [BaseEndHeaders])%list.
Proof.
  unfold end_headers, send_header, super_end_headers, fixed_sends. simpl.
  now rewrite <- !app_assoc.
Qed.










(** C6: an OPTIONS request, whatever its path, is answered by [do_OPTIONS]
    alone: status 200, the header block, no body, no use of the file system,
    and none of the inherited static-file methods is run. *)
Theorem options_preflight (inherited : request -> list call) (p : string) :
  let out := handle inherited {| command := "OPTIONS"; path := p |} in
  out = (SendResponse 200 :: fixed_sends ++ [BaseEndHeaders])%list
  /\ status_of out = [200%Z]
  /\ body_of out = []
  /\ file_accesses out = [].
Proof. repeat split. Qed.

End HandlerFacts.

(** ** Effects *)

Section EffectFacts.
Import Py.
Context {P : action -> Prop}.

Lemma emits_ret {A} (a : A) : emits P (mret a).
Proof. intros w. exists []. simpl. now rewrite app_nil_r. Qed.

Lemma emits_raise {A} (r : raised) : emits P (@raise A r).
Proof. intros w. exists []. simpl. now rewrite app_nil_r. Qed.

Lemma emits_block {A} : emits P (@block A).
Proof. intros w. exists []. simpl. now rewrite app_nil_r. Qed.

Lemma emits_getcwd : emits P getcwd.
Proof. intros w. exists []. simpl. now rewrite app_nil_r. Qed.

Lemma emits_next_probe : emits P next_probe.
Proof. intros w. exists []. simpl. now rewrite app_nil_r. Qed.

Lemma emits_emit (a : action) : P a -> emits P (emit a).
Proof. intros Ha w. exists [a]. simpl. split; [reflexivity | now constructor]. Qed.

Lemma emits_chdir (dir : string) : P (Chdir dir) -> emits P (chdir dir).
Proof. intros Ha w. exists [Chdir dir]. simpl. split; [reflexivity | now constructor]. Qed.

Lemma emits_perform {A} (r : attempt A) : emits P (perform r).
Proof. destruct r; [apply emits_ret | apply emits_raise]. Qed.

Lemma emits_bind {A B} (m : M A) (k : A -> M B) :
  emits P m -> (forall a, emits P (k a)) -> emits P (m ≫= k).
Proof.
  intros Hm Hk w. destruct (Hm w) as (add1 & E1 & F1).
  unfold mbind, M_bind. destruct (m w) as [[a | r |] w1]; simpl in E1.
  - destruct (Hk a w1) as (add2 & E2 & F2). exists (add1 ++ add2)%list.
    rewrite E2, E1, app_assoc. split; [reflexivity | now apply Forall_app].
  - now exists add1.
  - now exists add1.
Qed.

Lemma emits_try_except {A} (body : M A) (handler : raised -> option (M A)) :
  emits P body ->
  (forall r h, handler r = Some h -> emits P h) ->
  emits P (try_except body handler).
Proof.
  intros Hb Hh w. destruct (Hb w) as (add1 & E1 & F1).
  unfold try_except. destruct (body w) as [[a | r |] w1]; simpl in E1.
  - now exists add1.
  - destruct (handler r) as [h |] eqn:Eh; [| now exists add1].
    destruct (Hh r h Eh w1) as (add2 & E2 & F2). exists (add1 ++ add2)%list.
    rewrite E2, E1, app_assoc. split; [reflexivity | now apply Forall_app].
  - now exists add1.
Qed.

Lemma emits_try_finally {A} (body : M A) (cleanup : M unit) :
  emits P body -> emits P cleanup -> emits P (try_finally body cleanup).
Proof.
  intros Hb Hc w. destruct (Hb w) as (add1 & E1 & F1).
  unfold try_finally.
  destruct (body w) as [[a | r |] w1]; simpl in E1; [| | now exists add1];
    destruct (Hc w1) as (add2 & E2 & F2); exists (add1 ++ add2)%list;
    (split; [| now apply Forall_app]);
    destruct (cleanup w1) as [[[] | r' |] w2]; simpl in *;
    now rewrite E2, E1, app_assoc.
Qed.

End EffectFacts.

(** One step through a computation, for goals of the form [emits P m]. *)
Ltac emits_step :=
  lazymatch goal with
  | |- Py.emits _ (mbind _ _) => apply emits_bind; [| intros ?]
  | |- Py.emits _ (mret _) => apply emits_ret
  | |- Py.emits _ (Py.raise _) => apply emits_raise
  | |- Py.emits _ (Py.sys_exit _) => apply emits_raise
  | |- Py.emits _ Py.block => apply emits_block
  | |- Py.emits _ Py.getcwd => apply emits_getcwd
  | |- Py.emits _ Py.next_probe => apply emits_next_probe
  | |- Py.emits _ (Py.perform _) => apply emits_perform
  | |- Py.emits _ (Py.print _) => apply emits_emit; simpl; try exact I
  | |- Py.emits _ (Py.emit _) => apply emits_emit; simpl; try exact I
  | |- Py.emits _ (Py.chdir _) => apply emits_chdir; simpl; try exact I
  | |- Py.emits _ (Py.try_finally _ _) => apply emits_try_finally
  | |- Py.emits _ (Py.try_except _ _) =>
      apply emits_try_except;
      [| let r := fresh "r" in let h := fresh "h" in let E := fresh "E" in
         intros r h E;
         repeat match type of E with
                | match ?x with _ => _ end = Some _ => destruct x
                end;
         try discriminate E; injection E as <-]
  | |- Py.emits _ (if ?c then _ else _) => destruct c
  | |- Py.emits _ (match ?x with _ => _ end) => destruct x
  end.

(** ** Network address resolver *)

Section ResolverFacts.
Import Py Resolver.

Lemma get_network_ip_eq (probes : nat -> probe) (w : world) :
  get_network_ip probes w
  = (Ret (resolved (probes (probes_done w))),
     {| cwd := cwd w; probes_done := S (probes_done w); out := out w |}).
Proof.
  unfold get_network_ip, try_except, resolved, mbind, M_bind, next_probe.
  destruct (socket_open (probes (probes_done w))) as [[] | x1]; simpl;
    [| reflexivity].
  destruct (socket_connect (probes (probes_done w))) as [[] | x2]; simpl;
    [| reflexivity].
  destruct (socket_getsockname (probes (probes_done w))) as [name | x3]; simpl;
    reflexivity.
Qed.

(** C9: the resolver always returns an address and never raises, whatever
    the socket calls do: when one of them fails the address is 127.0.0.1,
    and when all succeed it is the address the probe socket is bound to. *)
Theorem get_network_ip_total (probes : nat -> probe) (w : world) :
  exists ip w',
    get_network_ip probes w = (Ret ip, w')
    /\ out w' = out w
    /\ ip = match socket_open (probes (probes_done w)),
                  socket_connect (probes (probes_done w)),
                  socket_getsockname (probes (probes_done w)) with
            | Done _, Done _, Done name => fst name
            | Fails _, _, _ | _, Fails _, _ | _, _, Fails _ => "127.0.0.1"
            end.
Proof.
  eexists _, _. rewrite get_network_ip_eq. repeat split.
Qed.

Example get_network_ip_no_route :
  fst (get_network_ip
         (fun _ => {| socket_open := Done tt;
                      socket_connect := Fails (OSError 101 "Network is unreachable");
                      socket_getsockname := Done ("10.0.0.7", 40000%Z) |})
         {| cwd := "/"; probes_done := 0; out := [] |})
  = Ret "127.0.0.1".
Proof. reflexivity. Qed.

Lemma emits_get_network_ip (P : action -> Prop) (probes : nat -> probe) :
  emits P (get_network_ip probes).
Proof.
  intros w. exists []. rewrite get_network_ip_eq. simpl.
  now rewrite app_nil_r.
Qed.

End ResolverFacts.

(** ** Orchestrator *)

Section OrchestratorFacts.
Import Py Orchestrator.

Ltac emits_all :=
  repeat first [apply emits_get_network_ip | emits_step].

(** Whatever a launch does, a timer it starts is the one-second timer for
    the loopback address. *)
Lemma main_timers (a : args) (e : env) : emits (loopback_timer a) (main a e).
Proof.
  unfold main, check_dependencies, start_file_watcher, with_server, serve.
  emits_all; split; reflexivity.
Qed.

(** Evaluation of a launch whose surroundings are partly known. *)
Ltac run_main :=
  cbv -[str_of_int String.append Z.add Z.eqb String.eqb Resolver.get_network_ip
        In String.concat].

Ltac run_probes := rewrite ?get_network_ip_eq; run_main.

Ltac in_trace := cbv [In]; repeat first [left; reflexivity | right].

Ltac not_in_trace :=
  cbv [In];
  repeat (let H := fresh in intros [H | H]; [discriminate H | revert H]);
  intros [].

Example launch_on_all_interfaces :
  run_script
    {| port := 3000; no_browser := false; no_watch := true;
       host := "0.0.0.0" |}
    {| launch_cwd := "/home/dev"; script_dir := "/srv/atlas";
       path_exists := fun dir file =>
         String.eqb dir "/srv/atlas" && String.eqb file "index.html";
       watchdog_installed := true; watcher_start := Done tt;
       server_bind := Done tt;
       probes := fun _ =>
         {| Resolver.socket_open := Done tt;
            Resolver.socket_connect := Done tt;
            Resolver.socket_getsockname := Done ("192.168.1.20", 51000%Z) |};
       serve_ends := Some KeyboardInterrupt |}
  = (Exited 0,
     [Chdir "/srv/atlas"; ServerBind "0.0.0.0" 3000;
      Print (nl ++ rule);
      Print "🚀 Financial Atlas Development Server";
      Print rule;
      Print "📁 Serving directory: /srv/atlas";
      Print "🌐 Local URL:        http://127.0.0.1:3000";
      Print "🌍 Network URL:      http://192.168.1.20:3000";
      Print "📝 Main file:        index.html";
      Print rule;
      Print "💡 Tips:";
      Print "   • Press Ctrl+C to stop the server";
      Print "   • Refresh browser to see changes";
      Print "   • Check browser console for any errors";
      Print rule;
      Print "🔗 Opening browser: http://127.0.0.1:3000";
      TimerStart 1 "http://127.0.0.1:3000";
      Print (nl ++ "✅ Server running on http://192.168.1.20:3000");
      Print ("   Press Ctrl+C to stop" ++ nl);
      ServeForever; ServerClose;
      Print (nl ++ nl ++ "🛑 Server stopped by user")]).
Proof. vm_compute. reflexivity. Qed.

(** C10: the browser is only ever sent to http://127.0.0.1:<port>, by the
    one-second timer, whatever the host given on the command line; and a
    launch with auto-open enabled whose listener comes up does start that
    timer. *)
Theorem browser_opens_loopback (a : args) (e : env) :
  Forall (loopback_timer a) (snd (run_script a e))
  /\ (watchdog_installed e = true ->
      path_exists e (script_dir e) "index.html" = true ->
      server_bind e = Done tt ->
      no_browser a = false ->
      In (TimerStart 1 ("http://127.0.0.1:" ++ str_of_int (port a)))
         (snd (run_script a e))).
Proof.
  split.
  - unfold run_script. destruct (watchdog_installed e).
    + destruct (main_timers a e
                  {| cwd := launch_cwd e; probes_done := 0; out := [] |})
        as (added & E & F).
      destruct (main a e _) as [[[] | [x | | code] |] w]; simpl in *;
        rewrite E; try exact F.
      apply Forall_app. split; [exact F |]. repeat constructor.
    + repeat constructor.
  - destruct a as [port nb nw host], e as [lc sd pe wi ws sb pr se]; simpl.
    intros -> Hex -> ->. unfold run_script. run_main. rewrite Hex. run_main.
    destruct nw, ws as [[] | [werrno wmsg | wmsg | wmsg]]; run_main;
      destruct (String.eqb host "0.0.0.0"); run_probes; run_probes;
      destruct se as [[[errno ? | ? | ?] | | ?] |]; run_main;
      try destruct (errno =? 48)%Z; run_main; in_trace.
Qed.

Lemma browser_opens_loopback_witness :
  In (TimerStart 1 "http://127.0.0.1:8000")
     (snd (run_script
             {| port := 8000; no_browser := false; no_watch := false;
                host := "0.0.0.0" |}
             {| launch_cwd := "/srv/atlas"; script_dir := "/srv/atlas";
                path_exists := fun _ file => String.eqb file "index.html";
                watchdog_installed := true; watcher_start := Done tt;
                server_bind := Done tt;
                probes := fun _ =>
                  {| Resolver.socket_open := Done tt;
                     Resolver.socket_connect := Done tt;
                     Resolver.socket_getsockname :=
                       Done ("192.168.1.20", 51000%Z) |};
                serve_ends := None |})).
Proof.
  apply (proj2 (browser_opens_loopback
    {| port := 8000; no_browser := false; no_watch := false;
       host := "0.0.0.0" |}
    {| launch_cwd := "/srv/atlas"; script_dir := "/srv/atlas";
       path_exists := fun _ file => String.eqb file "index.html";
       watchdog_installed := true; watcher_start := Done tt;
       server_bind := Done tt;
       probes := fun _ =>
         {| Resolver.socket_open := Done tt;
            Resolver.socket_connect := Done tt;
            Resolver.socket_getsockname := Done ("192.168.1.20", 51000%Z) |};
       serve_ends := None |})); reflexivity.
Defined.

(** C7, as stated: a launch from a working directory without index.html
    would exit with code 1 and bind nothing.  The check is made after
    [os.chdir(script_dir)]: started from another directory, a script that has
    index.html beside it binds and serves. *)
Lemma launch_directory_is_not_checked :
  ~ (forall (a : args) (e : env),
        path_exists e (launch_cwd e) "index.html" = false ->
        fst (run_script a e) = Exited 1
        /\ forall h p, ~ In (ServerBind h p) (snd (run_script a e))).
Proof.
  intros H.
  destruct (H {| port := 8000; no_browser := true; no_watch := true;
                 host := "127.0.0.1" |}
              {| launch_cwd := "/home/dev"; script_dir := "/srv/atlas";
                 path_exists := fun dir file =>
                   String.eqb dir "/srv/atlas" && String.eqb file "index.html";
                 watchdog_installed := true; watcher_start := Done tt;
                 server_bind := Done tt;
                 probes := fun _ =>
                   {| Resolver.socket_open := Done tt;
                      Resolver.socket_connect := Done tt;
                      Resolver.socket_getsockname :=
                        Done ("192.168.1.20", 51000%Z) |};
                 serve_ends := None |} eq_refl) as [Hexit _].
  vm_compute in Hexit. discriminate Hexit.
Qed.

(** C7, amended: if index.html is absent from the directory of the script,
    which the program makes its working directory before it validates, the
    program exits with code 1 and neither binds a listener nor serves. *)
Theorem missing_index_exits_before_bind (a : args) (e : env) :
  path_exists e (script_dir e) "index.html" = false ->
  fst (run_script a e) = Exited 1
  /\ (forall h p, ~ In (ServerBind h p) (snd (run_script a e)))
  /\ ~ In ServeForever (snd (run_script a e))
  /\ (watchdog_installed e = true ->
      snd (run_script a e)
      = [Chdir (script_dir e); Print "❌ Missing required files: index.html"]).
Proof.
  destruct a as [port nb nw host], e as [lc sd pe wi ws sb pr se]; simpl.
  intros Hex. unfold run_script. destruct wi; run_main; rewrite ?Hex; run_main.
  - repeat split; [intros h p; not_in_trace | not_in_trace].
  - repeat split; [intros h p; not_in_trace | not_in_trace | discriminate].
Qed.

Lemma missing_index_exits_before_bind_witness :
  fst (run_script
         {| port := 8000; no_browser := false; no_watch := false;
            host := "127.0.0.1" |}
         {| launch_cwd := "/srv/atlas"; script_dir := "/srv/atlas";
            path_exists := fun _ _ => false;
            watchdog_installed := true; watcher_start := Done tt;
            server_bind := Done tt;
            probes := fun _ =>
              {| Resolver.socket_open := Done tt;
                 Resolver.socket_connect := Done tt;
                 Resolver.socket_getsockname :=
                   Done ("192.168.1.20", 51000%Z) |};
            serve_ends := None |})
  = Exited 1.
Proof.
  apply (missing_index_exits_before_bind
    {| port := 8000; no_browser := false; no_watch := false;
       host := "127.0.0.1" |}
    {| launch_cwd := "/srv/atlas"; script_dir := "/srv/atlas";
       path_exists := fun _ _ => false;
       watchdog_installed := true; watcher_start := Done tt;
       server_bind := Done tt;
       probes := fun _ =>
         {| Resolver.socket_open := Done tt;
            Resolver.socket_connect := Done tt;
            Resolver.socket_getsockname := Done ("192.168.1.20", 51000%Z) |};
       serve_ends := None |}).
  reflexivity.
Defined.

(** The [except OSError] clause: with errno 48 the two lines about the port
    are printed, the second naming the port plus one; then exit code 1. *)
Lemma bind_error_48 (a : args) (e : env) (msg : string) :
  watchdog_installed e = true ->
  path_exists e (script_dir e) "index.html" = true ->
  server_bind e = Fails (OSError 48 msg) ->
  fst (run_script a e) = Exited 1
  /\ In (Print ("   python serve.py -p " ++ str_of_int (port a + 1)))
        (snd (run_script a e)).
Proof.
  destruct a as [port nb nw host], e as [lc sd pe wi ws sb pr se]; simpl.
  intros -> Hex ->. unfold run_script. run_main. rewrite Hex. run_main.
  destruct nw, ws as [[] | [werrno wmsg | wmsg | wmsg]]; run_main;
    (split; [reflexivity | in_trace]).
Qed.

(** On macOS and the BSDs, where 48 is [EADDRINUSE], a taken port gets the
    suggestion. *)
Lemma address_in_use_on_darwin (a : args) (e : env) (msg : string) :
  watchdog_installed e = true ->
  path_exists e (script_dir e) "index.html" = true ->
  server_bind e = Fails (OSError (EADDRINUSE Darwin) msg) ->
  fst (run_script a e) = Exited 1
  /\ In (Print ("   python serve.py -p " ++ str_of_int (port a + 1)))
        (snd (run_script a e)).
Proof. apply bind_error_48. Qed.

(** Any other [OSError] at bind time is reported and ends with exit code 1;
    the lines about the port are not printed. *)
Lemma bind_error_other (a : args) (e : env) (errno : Z) (msg : string) :
  watchdog_installed e = true ->
  path_exists e (script_dir e) "index.html" = true ->
  server_bind e = Fails (OSError errno msg) ->
  errno <> 48%Z ->
  fst (run_script a e) = Exited 1
  /\ In (Print ("❌ Server error: [Errno " ++ str_of_int errno ++ "] " ++ msg))
        (snd (run_script a e))
  /\ ~ In (Print ("   python serve.py -p " ++ str_of_int (port a + 1)))
          (snd (run_script a e)).
Proof.
  destruct a as [port nb nw host], e as [lc sd pe wi ws sb pr se]; simpl.
  intros -> Hex -> Hne. apply Z.eqb_neq in Hne.
  unfold run_script. run_main. rewrite Hex. run_main. rewrite Hne.
  destruct nw, ws as [[] | [werrno wmsg | wmsg | wmsg]]; run_main;
    (split; [reflexivity | split; [in_trace | not_in_trace]]).
Qed.

(** C4: where the operating system reports a taken port as errno 98 (Linux),
    the launch ends with exit code 1 and prints the raw error, not the
    suggestion of the port plus one: the handler compares with 48. *)
Theorem address_in_use_on_linux (a : args) (e : env) (msg : string) :
  watchdog_installed e = true ->
  path_exists e (script_dir e) "index.html" = true ->
  server_bind e = Fails (OSError (EADDRINUSE Linux) msg) ->
  fst (run_script a e) = Exited 1
  /\ In (Print ("❌ Server error: [Errno " ++ str_of_int 98 ++ "] " ++ msg))
        (snd (run_script a e))
  /\ ~ In (Print ("   python serve.py -p " ++ str_of_int (port a + 1)))
          (snd (run_script a e)).
Proof.
  intros Hw Hex Hb. apply (bind_error_other a e 98 msg Hw Hex Hb). discriminate.
Qed.

Lemma address_in_use_on_linux_witness :
  run_script
    {| port := 8000; no_browser := false; no_watch := true;
       host := "127.0.0.1" |}
    {| launch_cwd := "/srv/atlas"; script_dir := "/srv/atlas";
       path_exists := fun _ file => String.eqb file "index.html";
       watchdog_installed := true; watcher_start := Done tt;
       server_bind := Fails (OSError 98 "Address already in use");
       probes := fun _ =>
         {| Resolver.socket_open := Done tt;
            Resolver.socket_connect := Done tt;
            Resolver.socket_getsockname := Done ("192.168.1.20", 51000%Z) |};
       serve_ends := None |}
  = (Exited 1,
     [Chdir "/srv/atlas"; ServerClose;
      Print "❌ Server error: [Errno 98] Address already in use"])
  /\ fst (run_script
         {| port := 8000; no_browser := false; no_watch := true;
            host := "127.0.0.1" |}
         {| launch_cwd := "/srv/atlas"; script_dir := "/srv/atlas";
            path_exists := fun _ file => String.eqb file "index.html";
            watchdog_installed := true; watcher_start := Done tt;
            server_bind := Fails (OSError 98 "Address already in use");
            probes := fun _ =>
              {| Resolver.socket_open := Done tt;
                 Resolver.socket_connect := Done tt;
                 Resolver.socket_getsockname :=
                   Done ("192.168.1.20", 51000%Z) |};
            serve_ends := None |}) = Exited 1.
Proof.
  split; [vm_compute; reflexivity |].
  apply (address_in_use_on_linux
    {| port := 8000; no_browser := false; no_watch := true;
       host := "127.0.0.1" |}
    {| launch_cwd := "/srv/atlas"; script_dir := "/srv/atlas";
       path_exists := fun _ file => String.eqb file "index.html";
       watchdog_installed := true; watcher_start := Done tt;
       server_bind := Fails (OSError 98 "Address already in use");
       probes := fun _ =>
         {| Resolver.socket_open := Done tt;
            Resolver.socket_connect := Done tt;
            Resolver.socket_getsockname := Done ("192.168.1.20", 51000%Z) |};
       serve_ends := None |} "Address already in use");
    reflexivity.
Defined.

(** A watcher that fails to start is not fatal: the warning is printed, no
    observer runs, and the listener is bound all the same. *)
Lemma watcher_failure_is_not_fatal (a : args) (e : env) (x : exception) :
  watchdog_installed e = true ->
  path_exists e (script_dir e) "index.html" = true ->
  no_watch a = false ->
  watcher_start e = Fails x ->
  server_bind e = Done tt ->
  In (ServerBind (host a) (port a)) (snd (run_script a e))
  /\ (In (Print ("⚠️  Could not start file watcher: " ++ str_of x))
         (snd (run_script a e))
      \/ In (Print "⚠️  File watching not available (install watchdog: pip install watchdog)")
            (snd (run_script a e)))
  /\ (serve_ends e = None -> fst (run_script a e) = Serving).
Proof.
  destruct a as [port nb nw host], e as [lc sd pe wi ws sb pr se]; simpl.
  intros -> Hex -> -> ->. unfold run_script. run_main. rewrite Hex. run_main.
  destruct x as [werrno wmsg | wmsg | wmsg]; run_main;
    destruct (String.eqb host "0.0.0.0"); run_probes; run_probes;
    destruct nb; run_main;
    destruct se as [[[errno ? | ? | ?] | | ?] |]; run_main;
    try destruct (errno =? 48)%Z; run_main;
    (split; [in_trace | split; [solve [left; in_trace | right; in_trace]
                               | intros Hs; first [reflexivity | discriminate Hs]]]).
Qed.

(** C5: when watchdog is not installed the import on line 16 fails before
    [main] is entered: the process ends with a traceback and exit status 1,
    and prints no warning, binds nothing and serves nothing. *)
Theorem missing_watchdog_ends_process (a : args) (e : env) :
  watchdog_installed e = false ->
  run_script a e
  = (Exited 1, [Traceback (ImportError "No module named 'watchdog'")]).
Proof. intros H. unfold run_script. now rewrite H. Qed.

Lemma missing_watchdog_ends_process_witness :
  run_script
    {| port := 8000; no_browser := false; no_watch := false;
       host := "127.0.0.1" |}
    {| launch_cwd := "/srv/atlas"; script_dir := "/srv/atlas";
       path_exists := fun _ file => String.eqb file "index.html";
       watchdog_installed := false;
       watcher_start := Fails (ImportError "No module named 'watchdog'");
       server_bind := Done tt;
       probes := fun _ =>
         {| Resolver.socket_open := Done tt;
            Resolver.socket_connect := Done tt;
            Resolver.socket_getsockname := Done ("192.168.1.20", 51000%Z) |};
       serve_ends := None |}
  = (Exited 1, [Traceback (ImportError "No module named 'watchdog'")]).
Proof.
  apply missing_watchdog_ends_process. reflexivity.
Defined.

End OrchestratorFacts.

(** ** More on the change notifier *)

Section NotifierMore.
Import Notifier.

Lemma append_cons (c : Ascii.ascii) (s1 s2 : string) :
  String c s1 ++ s2 = String c (s1 ++ s2).
Proof. reflexivity. Qed.

Lemma substring_all (s : string) : String.substring 0 (String.length s) s = s.
Proof. induction s as [|c s IH]; simpl; [reflexivity | now rewrite IH]. Qed.

Lemma substring_skip (pre s : string) (n : nat) :
  String.substring (String.length pre) n (pre ++ s) = String.substring 0 n s.
Proof. induction pre as [|c pre IH]; [reflexivity | exact IH]. Qed.

Lemma substring_split (s : string) :
  forall m, (m <= String.length s)%nat ->
    s = String.substring 0 m s
        ++ String.substring m (String.length s - m) s.
Proof.
  induction s as [|c s IH]; intros m Hm; simpl in *.
  - destruct m; [reflexivity | lia].
  - destruct m as [|m]; simpl.
    + now rewrite substring_all.
    + rewrite append_cons. f_equal. apply IH. lia.
Qed.

Lemma length_append (s1 s2 : string) :
  String.length (s1 ++ s2) = (String.length s1 + String.length s2)%nat.
Proof.
  induction s1 as [|c s1 IH]; [reflexivity |].
  rewrite append_cons. simpl. now rewrite IH.
Qed.

Lemma endswith_append (stem suffix : string) :
  endswith (stem ++ suffix) suffix = true.
Proof.
  unfold endswith. rewrite andb_true_iff, Nat.leb_le, String.eqb_eq.
  rewrite length_append. split; [lia |].
  replace (String.length stem + String.length suffix - String.length suffix)%nat
    with (String.length stem) by lia.
  rewrite substring_skip. apply substring_all.
Qed.

Lemma endswith_stem (s suffix : string) :
  endswith s suffix = true -> exists stem, s = stem ++ suffix.
Proof.
  unfold endswith. rewrite andb_true_iff, Nat.leb_le, String.eqb_eq.
  intros [Hle Hsub].
  exists (String.substring 0 (String.length s - String.length suffix) s).
  pose proof (substring_split s (String.length s - String.length suffix))
    as H.
  replace (String.length s - (String.length s - String.length suffix))%nat
    with (String.length suffix) in H by lia.
  rewrite Hsub in H. apply H. lia.
Qed.

(** X1: [endswith] holds exactly when the string is some stem followed by
    the suffix; so a path is watched exactly when it is a stem followed by
    .html, .css or .js, a name that is nothing but the suffix included. *)
Theorem endswith_spec (s suffix : string) :
  (endswith s suffix = true <-> exists stem, s = stem ++ suffix)
  /\ (endswith_any s Notifier.watched_suffixes = true
      <-> exists stem,
            s = stem ++ ".html" \/ s = stem ++ ".css" \/ s = stem ++ ".js").
Proof.
  split.
  - split; [apply endswith_stem | intros [stem ->]; apply endswith_append].
  - unfold endswith_any, Notifier.watched_suffixes. cbn [existsb].
    rewrite !orb_true_iff. split.
    + intros [H | [H | [H | H]]]; try discriminate H;
        apply endswith_stem in H as [stem ->]; exists stem; auto.
    + intros [stem [-> | [-> | ->]]]; rewrite endswith_append; auto.
Qed.

Example endswith_empty_suffix : endswith "README" EmptyString = true.
Proof. reflexivity. Qed.

(** X2: events on directories are dropped before anything else is looked
    at, whatever their kind and name: a stream of them calls no callback and
    leaves the table as it was. *)
Theorem directory_events_ignored (evs : list (Q * event))
    (h : FileChangeHandler) :
  (forall t ev, In (t, ev) evs -> is_directory ev = true) ->
  run evs h = (h, []).
Proof.
  induction evs as [|[now ev] rest IH]; intros Hall; simpl.
  - reflexivity.
  - assert (dispatch now ev h = (h, [])) as ->.
    { unfold dispatch, on_modified.
      rewrite (Hall now ev) by now left. now destruct (kind ev). }
    rewrite IH by (intros t ev' Hin; apply (Hall t); now right).
    reflexivity.
Qed.

Lemma directory_events_ignored_witness :
  run [(0%Q, {| kind := Modified; is_directory := true;
                src_path := "vendor.js" |});
       (3%Q, {| kind := Modified; is_directory := true;
                src_path := "vendor.js" |})] init
  = (init, []).
Proof.
  apply directory_events_ignored.
  intros t ev [[= <- <-] | [[= <- <-] | []]]; reflexivity.
Defined.

(** X3: the callback is called only for events that arrived: the log of a
    run is, in order, a selection of the qualifying events of the stream,
    each with its own clock reading and path. *)
Theorem deliveries_are_events (evs : list (Q * event)) (h : FileChangeHandler) :
  sublist (snd (run evs h))
          (map delivery_of
               (List.filter (fun tev => qualifying (snd tev)) evs)).
Proof.
  revert h. induction evs as [|[now ev] rest IH]; intros h; simpl.
  - constructor.
  - destruct (dispatch_cases now ev h) as [E | (Hq & E & _)]; rewrite E.
    + specialize (IH h). destruct (run rest h) as [h2 log]. simpl in *.
      destruct (qualifying ev); [now apply sublist_cons | exact IH].
    + specialize (IH {| last_modified := <[src_path ev := now]> (last_modified h) |}).
      destruct (run rest _) as [h2 log]. simpl in *. rewrite Hq. simpl.
      now apply sublist_skip.
Qed.

Lemma last_cons_some {A} (x y : A) (l : list A) :
  last l = Some y -> last (x :: l) = Some y.
Proof. destruct l; [discriminate | intros H; exact H]. Qed.

(** X5: after a run, the table holds for every path the clock reading of its
    latest delivery in that run, and what it held before for the paths that
    were not delivered. *)
Theorem table_holds_last_delivery (evs : list (Q * event))
    (h : FileChangeHandler) (p : string) :
  last_modified (fst (run evs h)) !! p
  = match last_delivery p (snd (run evs h)) with
    | Some t => Some t
    | None => last_modified h !! p
    end.
Proof.
  revert h. induction evs as [|[now ev] rest IH]; intros h; simpl.
  - reflexivity.
  - destruct (dispatch_cases now ev h) as [E | (_ & E & _)]; rewrite E.
    + specialize (IH h). destruct (run rest h) as [h2 log]. exact IH.
    + specialize (IH {| last_modified := <[src_path ev := now]> (last_modified h) |}).
      destruct (run rest _) as [h2 log]. simpl in *. rewrite IH.
      unfold last_delivery, deliveries_for. simpl.
      destruct (String.eqb (src_path ev) p) eqn:Ep.
      * apply String.eqb_eq in Ep. simpl.
        destruct (last (map fst (List.filter _ log))) as [t|] eqn:L.
        -- now rewrite (last_cons_some _ _ _ L).
        -- apply last_None in L. rewrite L. simpl. rewrite Ep.
           apply lookup_insert_eq.
      * apply String.eqb_neq in Ep.
        destruct (last (map fst (List.filter _ log))); [reflexivity |].
        now apply lookup_insert_ne.
Qed.

Example table_after_two_saves :
  last_modified
    (fst (run [(0%Q, modification "a.js"); ((1 # 2)%Q, modification "a.js");
               (5%Q, modification "b.css"); (7%Q, modification "a.js")] init))
  = {[ "a.js" := 7%Q; "b.css" := 5%Q ]}.
Proof. vm_compute. reflexivity. Qed.

(** X6: an entry of the table is never removed and never moves back in
    time. *)
Theorem table_entries_persist (evs : list (Q * event))
    (h : FileChangeHandler) (p : string) (t : Q) :
  last_modified h !! p = Some t ->
  exists t', last_modified (fst (run evs h)) !! p = Some t' /\ (t <= t')%Q.
Proof.
  revert h t. induction evs as [|[now ev] rest IH]; intros h t Ht; simpl.
  - exists t. split; [exact Ht | lra].
  - destruct (dispatch_cases now ev h) as [E | (_ & E & Hw)]; rewrite E.
    + specialize (IH h t Ht). destruct (run rest h) as [h2 log]. exact IH.
    + destruct (decide (src_path ev = p)) as [Heq | Hne].
      * rewrite <- Heq in Ht. specialize (Hw t Ht).
        destruct (IH {| last_modified := <[src_path ev := now]> (last_modified h) |}
                     now) as (t' & Ht' & Hle).
        { simpl. rewrite Heq. apply lookup_insert_eq. }
        destruct (run rest _) as [h2 log]. exists t'. split; [exact Ht' | lra].
      * destruct (IH {| last_modified := <[src_path ev := now]> (last_modified h) |}
                     t) as (t' & Ht' & Hle).
        { simpl. now rewrite lookup_insert_ne. }
        destruct (run rest _) as [h2 log]. now exists t'.
Qed.

Lemma table_entries_persist_witness :
  exists t', last_modified
               (fst (run [(5%Q, modification "a.js")]
                         (fst (run [(0%Q, modification "a.js")] init)))) !! "a.js"
             = Some t' /\ (0 <= t')%Q.
Proof.
  apply table_entries_persist. vm_compute. reflexivity.
Defined.

(** What [dispatch] does with an event depends on the table only through
    the entry of the event's own path. *)
Lemma dispatch_same_entry (now : Q) (ev : event) (h h' : FileChangeHandler) :
  last_modified h !! src_path ev = last_modified h' !! src_path ev ->
  snd (dispatch now ev h) = snd (dispatch now ev h')
  /\ last_modified (fst (dispatch now ev h)) !! src_path ev
     = last_modified (fst (dispatch now ev h')) !! src_path ev.
Proof.
  intros Hsame. unfold dispatch, on_modified.
  destruct (kind ev); try (split; [reflexivity | exact Hsame]).
  destruct (is_directory ev); [split; [reflexivity | exact Hsame] |].
  destruct (endswith_any (src_path ev) watched_suffixes);
    [| split; [reflexivity | exact Hsame]].
  rewrite <- Hsame. destruct (last_modified h !! src_path ev) as [last|] eqn:L.
  - destruct (window_passed now last); cbn [fst snd last_modified];
      [now rewrite !lookup_insert_eq | split; congruence].
  - cbn [fst snd last_modified]. now rewrite !lookup_insert_eq.
Qed.

(** An event for another path leaves the entry of [p] alone, and what it
    delivers is not for [p]. *)
Lemma dispatch_other_path (now : Q) (ev : event) (h : FileChangeHandler)
    (p : string) :
  src_path ev <> p ->
  last_modified (fst (dispatch now ev h)) !! p = last_modified h !! p
  /\ deliveries_for p (map (pair now) (snd (dispatch now ev h))) = [].
Proof.
  intros Hne.
  destruct (dispatch_cases now ev h) as [E | (_ & E & _)]; rewrite E; simpl.
  - auto.
  - split; [now apply lookup_insert_ne |].
    unfold deliveries_for. simpl.
    apply String.eqb_neq in Hne. now rewrite Hne.
Qed.

Lemma deliveries_for_app (p : string) (l1 l2 : list (Q * string)) :
  deliveries_for p (l1 ++ l2)
  = (deliveries_for p l1 ++ deliveries_for p l2)%list.
Proof. unfold deliveries_for. apply List.filter_app. Qed.

Lemma run_per_path (p : string) (evs : list (Q * event)) :
  forall h h' : FileChangeHandler,
    last_modified h !! p = last_modified h' !! p ->
    deliveries_for p (snd (run evs h))
    = snd (run (List.filter (for_path p) evs) h').
Proof.
  induction evs as [|[now ev] rest IH]; intros h h' Hsame; simpl.
  - reflexivity.
  - unfold for_path at 1. simpl.
    destruct (String.eqb (src_path ev) p) eqn:Ep.
    + apply String.eqb_eq in Ep. subst p. simpl.
      destruct (dispatch_same_entry now ev h h' Hsame) as [Hcalls Hentry].
      destruct (dispatch now ev h) as [h1 calls] eqn:D.
      destruct (dispatch now ev h') as [h1' calls'] eqn:D'.
      simpl in Hcalls, Hentry. subst calls'.
      specialize (IH h1 h1' Hentry).
      destruct (run rest h1) as [h2 log].
      destruct (run (List.filter _ rest) h1') as [h2' log'].
      simpl in *. rewrite deliveries_for_app, IH. f_equal.
      destruct (dispatch_cases now ev h) as [E | (_ & E & _)];
        rewrite D in E; injection E as _ ->; [reflexivity |].
      unfold deliveries_for. simpl. now rewrite String.eqb_refl.
    + apply String.eqb_neq in Ep.
      destruct (dispatch_other_path now ev h p Ep) as [Hentry Hnone].
      destruct (dispatch now ev h) as [h1 calls]. simpl in Hentry, Hnone.
      specialize (IH h1 h' (eq_trans Hentry Hsame)).
      destruct (run rest h1) as [h2 log]. simpl in *.
      now rewrite deliveries_for_app, Hnone, IH.
Qed.

(** X7: the debounce of one path is not affected by the events of the
    others: the deliveries for [p] in a run are those of the run in which only
    the events for [p] arrive. *)
Theorem debounce_is_per_path (p : string) (evs : list (Q * event))
    (h : FileChangeHandler) :
  deliveries_for p (snd (run evs h))
  = snd (run (List.filter (for_path p) evs) h).
Proof. now apply run_per_path. Qed.

(** X8: modifications of a watched file that come at least [1 + ulp_one]
    seconds apart (one second and the step to the next float above 1), the
    first that long after the entry of the table when there is one, are all
    delivered, each with its clock reading. *)
Theorem spaced_modifications_all_delivered (p : string) (ts : list Q)
    (h : FileChangeHandler) :
  endswith_any p watched_suffixes = true ->
  spaced_after (last_modified h !! p) ts ->
  snd (run (map (fun t => (t, modification p)) ts) h)
  = map (fun t => (t, p)) ts.
Proof.
  intros Hext. revert h. induction ts as [|t ts IH]; intros h Hsp; simpl.
  - reflexivity.
  - destruct Hsp as [Hfirst Hrest].
    assert (dispatch t (modification p) h
            = ({| last_modified := <[p := t]> (last_modified h) |}, [p])) as ->.
    { unfold dispatch, on_modified, modification.
      cbn [kind is_directory src_path]. rewrite Hext.
      destruct (last_modified h !! p) as [last|]; [| reflexivity].
      assert (W : window_passed t last = true).
      { apply window_passed_spec. unfold ulp_one in Hfirst. lra. }
      now rewrite W. }
    specialize (IH {| last_modified := <[p := t]> (last_modified h) |}).
    simpl in IH. rewrite lookup_insert_eq in IH. specialize (IH Hrest).
    destruct (run _ _) as [h2 log]. simpl in *. now rewrite IH.
Qed.

Lemma spaced_modifications_all_delivered_witness :
  snd (run (map (fun t => (t, modification "index.html"))
                [0%Q; (3 # 2)%Q; 4%Q]) init)
  = map (fun t => (t, "index.html")) [0%Q; (3 # 2)%Q; 4%Q].
Proof.
  apply spaced_modifications_all_delivered.
  - reflexivity.
  - vm_compute. repeat split; discriminate.
Defined.

End NotifierMore.

(** ** More on the request handler *)

Section HandlerMore.
Import Handler.

Lemma perform_eq (c : call) (out : list action) :
  perform c out = (out ++ perform c [])%list.
Proof.
  destruct c; try reflexivity. simpl.
  now rewrite !end_headers_eq, <- !app_assoc.
Qed.

Lemma perform_all_eq (cs : list call) :
  forall out,
    perform_all cs out = (out ++ flat_map (fun c => perform c []) cs)%list.
Proof.
  induction cs as [|c cs IH]; intros out; simpl.
  - now rewrite app_nil_r.
  - unfold perform_all in *. simpl. rewrite IH, (perform_eq c out).
    now rewrite <- app_assoc.
Qed.

Lemma projections_of_calls (cs : list call) :
  status_of (flat_map (fun c => perform c []) cs) = codes_of_calls cs
  /\ body_of (flat_map (fun c => perform c []) cs) = bodies_of_calls cs
  /\ file_accesses (flat_map (fun c => perform c []) cs) = accesses_of_calls cs
  /\ headers_of (flat_map (fun c => perform c []) cs) = headers_of_calls cs.
Proof.
  unfold status_of, body_of, file_accesses, headers_of, codes_of_calls,
    bodies_of_calls, accesses_of_calls, headers_of_calls.
  induction cs as [|c cs (IH1 & IH2 & IH3 & IH4)]; simpl; [auto |].
  rewrite !omap_app, IH1, IH2, IH3, IH4. destruct c; simpl; auto.
Qed.

(** X9: the override touches the headers only.  For a request other than
    OPTIONS the status codes, the body and the uses of the file system of the
    response are exactly those of the inherited method, in its order. *)
Theorem inherited_parts_unchanged
    (inherited : request -> list call) (req : request) :
  command req <> "OPTIONS" ->
  status_of (handle inherited req) = codes_of_calls (inherited req)
  /\ body_of (handle inherited req) = bodies_of_calls (inherited req)
  /\ file_accesses (handle inherited req) = accesses_of_calls (inherited req).
Proof.
  intros Hcmd. unfold handle. apply String.eqb_neq in Hcmd. rewrite Hcmd.
  rewrite perform_all_eq. simpl.
  destruct (projections_of_calls (inherited req)) as (H1 & H2 & H3 & _).
  auto.
Qed.

Lemma inherited_parts_unchanged_witness :
  status_of (handle (fun r => [CallFileSystem (path r); CallSendResponse 200;
                               CallSendHeader "Content-Type" "text/css";
                               CallEndHeaders; CallWrite "body{}"])
                    {| command := "GET"; path := "/style.css" |}) = [200%Z]
  /\ body_of (handle (fun r => [CallFileSystem (path r); CallSendResponse 200;
                                CallSendHeader "Content-Type" "text/css";
                                CallEndHeaders; CallWrite "body{}"])
                     {| command := "GET"; path := "/style.css" |}) = ["body{}"]
  /\ file_accesses (handle (fun r => [CallFileSystem (path r);
                                      CallSendResponse 200;
                                      CallSendHeader "Content-Type" "text/css";
                                      CallEndHeaders; CallWrite "body{}"])
                           {| command := "GET"; path := "/style.css" |})
     = ["/style.css"].
Proof.
  apply (inherited_parts_unchanged
           (fun r => [CallFileSystem (path r); CallSendResponse 200;
                      CallSendHeader "Content-Type" "text/css";
                      CallEndHeaders; CallWrite "body{}"])
           {| command := "GET"; path := "/style.css" |}).
  discriminate.
Defined.

Lemma own_headers_sublist (cs : list call) :
  sublist (own_headers_of_calls cs) (headers_of_calls cs).
Proof.
  unfold own_headers_of_calls, headers_of_calls.
  induction cs as [|c cs IH]; simpl; [constructor |].
  destruct c; simpl; try exact IH.
  - now apply sublist_skip.
  - now repeat apply sublist_cons.
Qed.

Lemma headers_of_calls_length (cs : list call) :
  length (headers_of_calls cs)
  = (length (own_headers_of_calls cs) + 6 * blocks_of_calls cs)%nat.
Proof.
  unfold own_headers_of_calls, headers_of_calls, blocks_of_calls.
  induction cs as [|c cs IH]; [reflexivity |].
  destruct c; cbn [flat_map omap list_omap List.filter];
    rewrite ?List.length_app; cbn [length fixed_headers]; cbn [length] in IH;
    lia.
Qed.

(** X10: the override adds and never replaces.  For a request other than
    OPTIONS the headers of the response are those the inherited method sends,
    all of them and in their order, with the six fixed headers put in at each
    place where it ends a header block; so a header the inherited method sent
    under one of the fixed names is sent as well. *)
Theorem headers_added_never_replaced
    (inherited : request -> list call) (req : request) :
  command req <> "OPTIONS" ->
  headers_of (handle inherited req) = headers_of_calls (inherited req)
  /\ sublist (own_headers_of_calls (inherited req))
             (headers_of (handle inherited req))
  /\ length (headers_of (handle inherited req))
     = (length (own_headers_of_calls (inherited req))
        + 6 * blocks_of_calls (inherited req))%nat.
Proof.
  intros Hcmd. unfold handle. apply String.eqb_neq in Hcmd. rewrite Hcmd.
  rewrite perform_all_eq. simpl.
  destruct (projections_of_calls (inherited req)) as (_ & _ & _ & ->).
  split; [reflexivity |]. split.
  - apply own_headers_sublist.
  - apply headers_of_calls_length.
Qed.

Lemma headers_added_never_replaced_witness :
  headers_of (handle (fun _ => [CallSendResponse 200;
                                CallSendHeader "Cache-Control" "max-age=3600";
                                CallEndHeaders])
                     {| command := "GET"; path := "/" |})
  = [("Cache-Control", "max-age=3600");
     ("Access-Control-Allow-Origin", "*");
     ("Access-Control-Allow-Methods", "GET, POST, OPTIONS");
     ("Access-Control-Allow-Headers", "Content-Type");
     ("Cache-Control", "no-cache, no-store, must-revalidate");
     ("Pragma", "no-cache");
     ("Expires", "0")].
Proof.
  apply (headers_added_never_replaced
           (fun _ => [CallSendResponse 200;
                      CallSendHeader "Cache-Control" "max-age=3600";
                      CallEndHeaders])
           {| command := "GET"; path := "/" |}).
  discriminate.
Defined.

End HandlerMore.

(** ** The callback of the watcher *)

Section CallbackFacts.
Import Py Callback.

Example basename_examples :
  basename "./index.html" = "index.html"
  /\ basename "style.css" = "style.css"
  /\ basename "/srv/atlas/js/app.js" = "app.js"
  /\ basename "assets/" = EmptyString.
Proof. repeat split. Qed.

Lemma after_last_slash_none (s : string) :
  after_last_slash s = None <-> slash_free s = true.
Proof.
  induction s as [|c s IH]; simpl; [tauto |].
  destruct (after_last_slash s) as [t|].
  - split; [discriminate |]. intros H. apply andb_true_iff in H as [_ H].
    apply IH in H. discriminate.
  - destruct (Ascii.eqb c slash); simpl.
    + split; discriminate.
    + split; [intros _; now apply IH | reflexivity].
Qed.

Lemma after_last_slash_some (p s : string) :
  after_last_slash p = Some s ->
  slash_free s = true /\ exists dir, p = dir ++ String slash s.
Proof.
  revert s. induction p as [|c p IH]; simpl; intros s H; [discriminate |].
  destruct (after_last_slash p) as [t|] eqn:E.
  - injection H as ->. destruct (IH s eq_refl) as (Hfree & dir & ->).
    split; [exact Hfree |]. now exists (String c dir).
  - destruct (Ascii.eqb c slash) eqn:Ec; [| discriminate].
    injection H as ->. apply Ascii.eqb_eq in Ec. subst c.
    split; [now apply after_last_slash_none |]. now exists EmptyString.
Qed.

(** X20: the name shown for a changed file has no slash in it and is the
    end of the path: the path is the name alone, or a directory part that
    ends with a slash followed by the name. *)
Theorem basename_is_last_component (p : string) :
  slash_free (basename p) = true
  /\ exists dir, p = dir ++ basename p
                 /\ (dir = EmptyString \/ endswith dir "/" = true).
Proof.
  unfold basename. destruct (after_last_slash p) as [s|] eqn:E.
  - destruct (after_last_slash_some p s E) as (Hfree & dir & ->).
    split; [exact Hfree |]. exists (dir ++ "/"). split.
    + clear. induction dir as [|c dir IH]; [reflexivity |].
      change ((String c dir ++ "/") ++ s) with (String c ((dir ++ "/") ++ s)).
      now rewrite <- IH.
    + right. apply endswith_append.
  - split; [now apply after_last_slash_none |].
    exists EmptyString. split; [reflexivity | now left].
Qed.

Lemma after_last_slash_join (dir name : string) :
  slash_free name = true ->
  after_last_slash (dir ++ String slash name) = Some name.
Proof.
  intros Hfree. induction dir as [|c dir IH].
  - change (EmptyString ++ String slash name) with (String slash name).
    simpl. apply after_last_slash_none in Hfree. now rewrite Hfree.
  - change (String c dir ++ String slash name)
      with (String c (dir ++ String slash name)).
    simpl. now rewrite IH.
Qed.

(** X21: for a file [name] in a directory [dir], the callback prints two
    lines, the first naming the file without its directory, and does nothing
    else: it returns, and the working directory is as before. *)
Theorem on_file_changed_prints_name (dir name : string) (w : world) :
  slash_free name = true ->
  on_file_changed (dir ++ "/" ++ name) w
  = (Ret tt,
     {| cwd := cwd w; probes_done := probes_done w;
        out := (out w ++ [Print ("📁 File changed: " ++ name);
                          Print "🔄 Refresh your browser to see changes"])%list |}).
Proof.
  intros Hfree. unfold on_file_changed, basename.
  change ("/" ++ name) with (String slash name).
  rewrite (after_last_slash_join dir name Hfree).
  unfold mbind, M_bind, print, emit. cbn [cwd probes_done out].
  now rewrite <- app_assoc.
Qed.

Lemma on_file_changed_prints_name_witness :
  on_file_changed ("." ++ "/" ++ "index.html")
                  {| cwd := "/srv/atlas"; probes_done := 0; out := [] |}
  = (Ret tt,
     {| cwd := "/srv/atlas"; probes_done := 0;
        out := [Print ("📁 File changed: " ++ "index.html");
                Print "🔄 Refresh your browser to see changes"] |}).
Proof.
  apply (on_file_changed_prints_name "." "index.html"
           {| cwd := "/srv/atlas"; probes_done := 0; out := [] |}).
  reflexivity.
Defined.

End CallbackFacts.

(** ** More on the orchestrator *)

Section OrchestratorMore.
Import Py Orchestrator.

(** Evaluation of a launch, case by case on what its surroundings do. *)
Ltac eval_run :=
  cbv -[str_of_int String.append Z.add Z.eqb String.eqb rule nl
        Resolver.get_network_ip Resolver.resolved In String.concat not].

(** The test on which the evaluation of [t] waits. *)
Ltac blocking t :=
  lazymatch t with
  | match ?s with _ => _ end => blocking s
  | ?f ?x =>
      let r := blocking f in
      lazymatch r with
      | f => t
      | _ => r
      end
  | _ => t
  end.

Ltac split_run :=
  repeat (eval_run;
          first
            [ progress rewrite ?get_network_ip_eq
            | lazymatch goal with
              | |- ?X = _ -> _ =>
                  let b := blocking X in
                  lazymatch b with
                  | X => fail
                  | _ => destruct b eqn:?
                  end
              end ]);
  eval_run.

(** A launch given by what it returned, so that it is evaluated once. *)
Ltac run_once a e st tr :=
  destruct (run_script a e) as [st tr] eqn:R; cbn [fst snd];
  revert R;
  destruct a as [port nb nw host], e as [lc sd pe wi ws sb pr se];
  unfold run_script; cbn [Orchestrator.port Orchestrator.host no_browser
    no_watch launch_cwd script_dir path_exists watchdog_installed
    watcher_start server_bind probes serve_ends].

Ltac run_again :=
  destruct (run_script _ _) as [st tr] eqn:R; cbn [fst snd];
  revert R; unfold run_script.

Ltac leaf := let E := fresh in intros E; injection E as <- <-.

Lemma same_kind_refl (x : action) : same_kind x x = true.
Proof. now destruct x. Qed.

(** Membership is decided among the actions of the same kind. *)
Lemma in_same_kind (x : action) (tr : list action) :
  In x tr <-> In x (List.filter (same_kind x) tr).
Proof.
  rewrite List.filter_In. split; [| tauto].
  intros H. split; [exact H | apply same_kind_refl].
Qed.

Ltac find_in :=
  apply in_same_kind; cbv [List.filter same_kind];
  solve [cbv [In]; repeat first [left; reflexivity | right]].

Ltac case_in H :=
  apply in_same_kind in H; cbv [List.filter same_kind] in H;
  cbv [In] in H;
  repeat (destruct H as [H | H]; [try discriminate H |]);
  try (exfalso; exact H).

(** X11: for a command line that [parser.parse_args()] accepts, whatever
    its options, the exit status is decided by four things only: whether
    watchdog can be imported, whether index.html is beside the script,
    whether the listener can be bound, and how the serving loop ends.  A
    launch that gets through start-up serves until the loop ends; an interrupt
    gives exit status 0, every exception status 1.  (The exits of argparse
    itself, on a command line it rejects or on -h, come before [main]'s body
    and are not part of it.) *)
Theorem exit_status_decided (a : args) (e : env) :
  fst (run_script a e) = expected_status e.
Proof.
  run_once a e st tr; unfold expected_status; split_run; leaf; reflexivity.
Qed.

(** X12: the actions of a launch other than printing come in one order,
    each at most once: traceback, chdir, observer start, bind, browser timer,
    serving, server close, observer stop, observer join. *)
Theorem lifecycle_order (a : args) (e : env) :
  StronglySorted lt (stages (snd (run_script a e))).
Proof.
  run_once a e st tr. split_run. all: leaf; cbv [stages stage omap list_omap].
  all: repeat constructor.
Qed.

(** X13: the listener is bound to the host and port of the command line,
    serving always follows a successful bind, and the server is closed on
    every way out of the serving loop.  A close happens only in a process that
    is ending, after a bind that succeeded or after one that failed (the
    constructor closes the socket it could not bind). *)
Theorem listener_closed_after_serving (a : args) (e : env) :
  (forall h p, In (ServerBind h p) (snd (run_script a e)) ->
     h = host a /\ p = port a
     /\ In ServeForever (snd (run_script a e))
     /\ (fst (run_script a e) <> Serving ->
         In ServerClose (snd (run_script a e))))
  /\ (In ServerClose (snd (run_script a e)) ->
      fst (run_script a e) <> Serving
      /\ (In (ServerBind (host a) (port a)) (snd (run_script a e))
          \/ exists x, server_bind e = Fails x))
  /\ (forall x, server_bind e = Fails x ->
      forall h p, ~ In (ServerBind h p) (snd (run_script a e))).
Proof.
  run_once a e st tr; split_run; leaf;
    (split;
     [ intros h p Hb; case_in Hb; injection Hb as <- <-;
       repeat split; try find_in; intros Hs; first [find_in | now elim Hs]
     | split;
       [ intros Hc; case_in Hc;
         (split; [discriminate
                 | first [left; find_in | right; eexists; reflexivity]])
       | intros x Hx h p Hb; first [discriminate Hx | case_in Hb] ] ]).
Qed.

Lemma listener_closed_after_serving_witness :
  In ServerClose (snd (run_script demo_args demo_env)).
Proof.
  destruct (proj1 (listener_closed_after_serving demo_args demo_env)
              "127.0.0.1" 8000%Z) as (_ & _ & _ & Hclose).
  - vm_compute. do 3 right. left. reflexivity.
  - apply Hclose. vm_compute. discriminate.
Defined.

(** X14: the watcher is started on the current directory, not recursively,
    and only when watching is on; once started it is stopped and then joined
    as the last two things the process does, on every way out; and nothing is
    stopped or joined that was not started. *)
Theorem observer_stopped_on_exit (a : args) (e : env) :
  (forall d r, In (ObserverStart d r) (snd (run_script a e)) ->
     d = "." /\ r = false /\ no_watch a = false
     /\ (fst (run_script a e) <> Serving ->
         exists pre,
           snd (run_script a e) = (pre ++ [ObserverStop; ObserverJoin])%list))
  /\ (In ObserverStop (snd (run_script a e))
      \/ In ObserverJoin (snd (run_script a e)) ->
      In (ObserverStart "." false) (snd (run_script a e))).
Proof.
  run_once a e st tr; split_run; leaf;
    (split;
     [ intros d0 r0 Hs; case_in Hs; injection Hs as <- <-;
       repeat split; intros Hst;
       first [ now elim Hst
             | lazymatch goal with
               | |- exists pre, ?l = _ =>
                   exists (removelast (removelast l)); reflexivity
               end ]
     | intros [Hs | Hs]; case_in Hs; find_in ]).
Qed.

Lemma observer_stopped_on_exit_witness :
  exists pre,
    snd (run_script demo_args demo_env)
    = (pre ++ [ObserverStop; ObserverJoin])%list.
Proof.
  destruct (proj1 (observer_stopped_on_exit demo_args demo_env) "." false)
    as (_ & _ & _ & Hend).
  - vm_compute. right. left. reflexivity.
  - apply Hend. vm_compute. discriminate.
Defined.

(** X15: with --no-watch the watcher is left alone: the launch does the
    same whether or not the watcher could have been started, and it starts,
    stops and joins no observer. *)
Theorem no_watch_leaves_watcher_alone (a : args) (e : env)
    (ws : attempt unit) :
  no_watch a = true ->
  run_script a
    {| launch_cwd := launch_cwd e; script_dir := script_dir e;
       path_exists := path_exists e;
       watchdog_installed := watchdog_installed e;
       watcher_start := ws; server_bind := server_bind e;
       probes := probes e; serve_ends := serve_ends e |}
  = run_script a e
  /\ (forall d r, ~ In (ObserverStart d r) (snd (run_script a e)))
  /\ ~ In ObserverStop (snd (run_script a e))
  /\ ~ In ObserverJoin (snd (run_script a e)).
Proof.
  intros Hnw. split.
  - destruct a as [port nb nw host], e as [lc sd pe wi wse sb pr se].
    cbn in Hnw. subst nw. unfold run_script, main; cbn. reflexivity.
  - destruct a as [port nb nw host], e as [lc sd pe wi wse sb pr se].
    cbn in Hnw. subst nw. run_again; split_run; leaf;
      (split; [intros d0 r0 Hs; case_in Hs
              | split; intros Hs; case_in Hs]).
Qed.

Lemma no_watch_leaves_watcher_alone_witness :
  ~ In ObserverStop
      (snd (run_script {| port := 8000; no_browser := true; no_watch := true;
                          host := "127.0.0.1" |} demo_env)).
Proof.
  apply (no_watch_leaves_watcher_alone
           {| port := 8000; no_browser := true; no_watch := true;
              host := "127.0.0.1" |} demo_env (Done tt)).
  reflexivity.
Defined.

(** X16: the browser timer is started exactly when auto-open is on and the
    listener was bound: a failed start-up opens no browser, and --no-browser
    starts no timer. *)
Theorem browser_timer_iff (a : args) (e : env) :
  In (TimerStart 1 (browser_url a)) (snd (run_script a e))
  <-> no_browser a = false
      /\ In (ServerBind (host a) (port a)) (snd (run_script a e)).
Proof.
  unfold browser_url.
  run_once a e st tr; split_run; leaf;
    (split;
     [ intros Ht; case_in Ht; (split; [reflexivity | find_in])
     | intros [Hnb Hb]; first [discriminate Hnb | case_in Hb; find_in] ]).
Qed.

(** X17: the directory the process is launched from has no influence: the
    launch does the same from any other directory, and the only directory
    it changes to is the one of the script. *)
Theorem launch_directory_irrelevant (a : args) (e : env) (dir : string) :
  run_script a
    {| launch_cwd := dir; script_dir := script_dir e;
       path_exists := path_exists e;
       watchdog_installed := watchdog_installed e;
       watcher_start := watcher_start e; server_bind := server_bind e;
       probes := probes e; serve_ends := serve_ends e |}
  = run_script a e
  /\ forall d, In (Chdir d) (snd (run_script a e)) -> d = script_dir e.
Proof.
  split.
  - destruct a as [port nb nw host], e as [lc sd pe wi ws sb pr se].
    unfold run_script, main, mbind, M_bind, chdir. reflexivity.
  - run_once a e st tr; split_run; leaf; intros d0 Hd; case_in Hd;
      now injection Hd as <-.
Qed.

Lemma launch_directory_irrelevant_witness :
  "/srv/atlas" = script_dir demo_env.
Proof.
  apply (proj2 (launch_directory_irrelevant demo_args demo_env "/tmp")).
  vm_compute. left. reflexivity.
Defined.

(** X18: the address shown for the server.  When the host is 0.0.0.0 the
    resolver is asked twice: the line [Server running on] shows the address of
    the first probe and the line [Network URL] that of the second.  For any
    other host the host is shown as given and no [Network URL] line is
    printed. *)
Theorem displayed_address (a : args) (e : env) :
  watchdog_installed e = true ->
  path_exists e (script_dir e) "index.html" = true ->
  server_bind e = Done tt ->
  if String.eqb (host a) "0.0.0.0" then
    In (Print (nl ++ "✅ Server running on http://"
                  ++ Resolver.resolved (probes e 0%nat) ++ ":"
                  ++ str_of_int (port a)))
       (snd (run_script a e))
    /\ In (Print ("🌍 Network URL:      http://"
                    ++ Resolver.resolved (probes e 1%nat) ++ ":"
                    ++ str_of_int (port a)))
          (snd (run_script a e))
  else
    In (Print (nl ++ "✅ Server running on http://" ++ host a ++ ":"
                  ++ str_of_int (port a)))
       (snd (run_script a e))
    /\ forall s, ~ In (Print ("🌍 Network URL:      http://" ++ s))
                      (snd (run_script a e)).
Proof.
  destruct a as [port nb nw host], e as [lc sd pe wi ws sb pr se]. cbn.
  intros -> Hex ->. revert Hex. run_again; split_run; leaf; intros Hex;
    try discriminate Hex;
    (split; [find_in | first [find_in | intros s0 Hs; case_in Hs]]).
Qed.

Lemma displayed_address_witness :
  In (Print (nl ++ "✅ Server running on http://10.0.0.7:8000"))
     (snd (run_script
             {| port := 8000; no_browser := true; no_watch := true;
                host := "0.0.0.0" |}
             {| launch_cwd := "/srv/atlas"; script_dir := "/srv/atlas";
                path_exists := fun _ file => String.eqb file "index.html";
                watchdog_installed := true; watcher_start := Done tt;
                server_bind := Done tt;
                probes := fun n =>
                  {| Resolver.socket_open := Done tt;
                     Resolver.socket_connect := Done tt;
                     Resolver.socket_getsockname :=
                       Done (if Nat.eqb n 0 then "10.0.0.7" else "10.0.0.8",
                             51000%Z) |};
                serve_ends := None |}))
  /\ In (Print "🌍 Network URL:      http://10.0.0.8:8000")
        (snd (run_script
                {| port := 8000; no_browser := true; no_watch := true;
                   host := "0.0.0.0" |}
                {| launch_cwd := "/srv/atlas"; script_dir := "/srv/atlas";
                   path_exists := fun _ file => String.eqb file "index.html";
                   watchdog_installed := true; watcher_start := Done tt;
                   server_bind := Done tt;
                   probes := fun n =>
                     {| Resolver.socket_open := Done tt;
                        Resolver.socket_connect := Done tt;
                        Resolver.socket_getsockname :=
                          Done (if Nat.eqb n 0 then "10.0.0.7" else "10.0.0.8",
                                51000%Z) |};
                   serve_ends := None |})).
Proof.
  apply (displayed_address
    {| port := 8000; no_browser := true; no_watch := true;
       host := "0.0.0.0" |}
    {| launch_cwd := "/srv/atlas"; script_dir := "/srv/atlas";
       path_exists := fun _ file => String.eqb file "index.html";
       watchdog_installed := true; watcher_start := Done tt;
       server_bind := Done tt;
       probes := fun n =>
         {| Resolver.socket_open := Done tt;
            Resolver.socket_connect := Done tt;
            Resolver.socket_getsockname :=
              Done (if Nat.eqb n 0 then "10.0.0.7" else "10.0.0.8",
                    51000%Z) |};
       serve_ends := None |}); reflexivity.
Defined.

(** X19: a launch that ends with exit status 1 says why: it prints a line
    that begins with the cross mark, or the interpreter prints the traceback
    of the failed import; unless the status comes from a [SystemExit] raised
    inside the serving loop. *)
Theorem fatal_errors_reported (a : args) (e : env) :
  fst (run_script a e) = Exited 1 ->
  serve_ends e <> Some (SystemExit 1) ->
  (exists msg, In (Print ("❌ " ++ msg)) (snd (run_script a e)))
  \/ (exists x, In (Traceback x) (snd (run_script a e))).
Proof.
  run_once a e st tr; split_run; leaf; intros Hst Hse;
    first [ discriminate Hst
          | left; eexists; find_in
          | right; eexists; find_in
          | injection Hst as ->; now elim Hse ].
Qed.

Lemma fatal_errors_reported_witness :
  (exists msg,
      In (Print ("❌ " ++ msg))
         (snd (run_script
                 {| port := 70000; no_browser := true; no_watch := true;
                    host := "127.0.0.1" |}
                 {| launch_cwd := "/srv/atlas"; script_dir := "/srv/atlas";
                    path_exists := fun _ file => String.eqb file "index.html";
                    watchdog_installed := true; watcher_start := Done tt;
                    server_bind :=
                      Fails (OtherException "bind(): port must be 0-65535.");
                    probes := fun _ =>
                      {| Resolver.socket_open := Done tt;
                         Resolver.socket_connect := Done tt;
                         Resolver.socket_getsockname :=
                           Done ("10.0.0.7", 51000%Z) |};
                    serve_ends := None |})))
  \/ (exists x,
         In (Traceback x)
            (snd (run_script
                    {| port := 70000; no_browser := true; no_watch := true;
                       host := "127.0.0.1" |}
                    {| launch_cwd := "/srv/atlas"; script_dir := "/srv/atlas";
                       path_exists := fun _ file =>
                         String.eqb file "index.html";
                       watchdog_installed := true; watcher_start := Done tt;
                       server_bind :=
                         Fails (OtherException "bind(): port must be 0-65535.");
                       probes := fun _ =>
                         {| Resolver.socket_open := Done tt;
                            Resolver.socket_connect := Done tt;
                            Resolver.socket_getsockname :=
                              Done ("10.0.0.7", 51000%Z) |};
                       serve_ends := None |}))).
Proof.
  apply fatal_errors_reported; [reflexivity | discriminate].
Defined.

End OrchestratorMore.
